(** * UnitApiTester: the test-execution and validation engine

    A shallow embedding of [src/weather_api_tester.py] (class
    [WeatherAPITester]) and the properties of its four methods:
    [check_for_weather_endpoints] (the endpoint prober),
    [test_api_endpoint] (the dispatcher), [create_mock_test_result]
    (the mock synthesizer) and [validate_weather_response] (the payload
    validator).

    Conventions of the embedding
    - a Python [str] is a list of Unicode code points;
    - a Python [int] is a [Z]; a Python [float] is an IEEE-754 binary64
      value, a [spec_float] of precision 53 and maximal exponent 1024;
    - the Python value produced by [response.json()] is a [JSON] tree,
      a [dict] being an association list in insertion order;
    - the network, the clock and the two float routines of the Python
      runtime that the code calls ([repr] and [round(_, 2)]) are oracles
      collected in records; every theorem quantifies over them;
    - exceptions and the mutation of the [result] dictionary are explicit:
      a computation maps a state to an outcome (an exception or a value)
      and a new state, so that what was written before a [raise] is still
      there when the handler runs. *)

From Stdlib Require Import List ZArith NArith Bool Lia String Ascii.
From Stdlib Require Import DecimalString.
From Stdlib Require Import SpecFloat.
Import ListNotations.

Set Warnings "-register-all".

Local Open Scope Z_scope.

(* ================================================================== *)
(** * Python strings *)
(* ================================================================== *)

(** A Python string: its code points, in order. *)
Definition str := list N.

(** An ASCII literal of the source as a Python string. *)
Definition lit (s : string) : str :=
  map N_of_ascii (list_ascii_of_string s).

Fixpoint str_eqb (a b : str) : bool :=
  match a, b with
  | [], [] => true
  | x :: a', y :: b' => N.eqb x y && str_eqb a' b'
  | _, _ => false
  end.

(** [x in xs] for a list of strings. *)
Definition str_in (x : str) (xs : list str) : bool :=
  existsb (str_eqb x) xs.

(** [str.isspace] of one character: the code points CPython's
    [_PyUnicode_IsWhitespace] accepts. *)
Definition is_space (c : N) : bool :=
  ((9 <=? c) && (c <=? 13) || (28 <=? c) && (c <=? 32)
   || (c =? 133) || (c =? 160) || (c =? 5760)
   || (8192 <=? c) && (c <=? 8202)
   || (c =? 8232) || (c =? 8233) || (c =? 8239) || (c =? 8287)
   || (c =? 12288))%N.

(** [s.lstrip()] *)
Fixpoint lstrip (s : str) : str :=
  match s with
  | c :: s' => if is_space c then lstrip s' else s
  | [] => []
  end.

(** [s.rstrip()] *)
Definition rstrip (s : str) : str := rev (lstrip (rev s)).

(** [s.strip()] *)
Definition strip (s : str) : str := rstrip (lstrip s).

(** [s.rstrip('/')], used by the constructor on the base URL. *)
Fixpoint lstrip_char (c : N) (s : str) : str :=
  match s with
  | x :: s' => if N.eqb x c then lstrip_char c s' else s
  | [] => []
  end.

Definition rstrip_char (c : N) (s : str) : str :=
  rev (lstrip_char c (rev s)).

(** [sep.join(parts)] *)
Fixpoint join (sep : str) (parts : list str) : str :=
  match parts with
  | [] => []
  | [p] => p
  | p :: rest => p ++ sep ++ join sep rest
  end.

(** [s.startswith(p)] *)
Fixpoint startswith (p s : str) : bool :=
  match p, s with
  | [], _ => true
  | x :: p', y :: s' => N.eqb x y && startswith p' s'
  | _ :: _, [] => false
  end.

(** [p in s] for strings: [p] occurs in [s] as a substring. *)
Fixpoint contains (p s : str) : bool :=
  startswith p s ||
  match s with
  | [] => false
  | _ :: s' => contains p s'
  end.

(** [str(z)] for a Python [int]. *)
Definition str_of_Z (z : Z) : str :=
  lit (NilZero.string_of_int (Z.to_int z)).

(** [s.lower()] on the ASCII letters.  The prober only lower-cases the
    output of [json.dumps], which (with the default [ensure_ascii]) holds
    ASCII characters only. *)
Definition lower_char (c : N) : N :=
  if ((65 <=? c) && (c <=? 90))%N then (c + 32)%N else c.

Definition lower (s : str) : str := map lower_char s.

(* ================================================================== *)
(** * Python values read from a JSON body *)
(* ================================================================== *)

(** Python floats: binary64. *)
Definition float := spec_float.

Definition prec : Z := 53.
Definition emax : Z := 1024.

(** The float a small Python [int] literal converts to (exact for
    [0 < |z| < 2^53]): the 53-bit mantissa and its exponent. *)
Definition float_m100 : float := S754_finite true (100 * 2 ^ 46) (-46).
Definition float_70 : float := S754_finite false (70 * 2 ^ 46) (-46).
Definition float_1000 : float := S754_finite false (1000 * 2 ^ 43) (-43).

(** The values [json.loads] builds: [None], [bool], [int], [float],
    [str], [list], [dict].  A [dict] is the list of its items in
    insertion order; its keys are pairwise distinct. *)
Inductive JSON : Type :=
| JNull
| JBool (b : bool)
| JInt (z : Z)
| JFloat (f : float)
| JStr (s : str)
| JList (l : list JSON)
| JDict (items : list (str * JSON)).

(** [key in d] *)
Definition dict_has (key : str) (items : list (str * JSON)) : bool :=
  existsb (fun kv => str_eqb key (fst kv)) items.

(** [d[key]] when [key in d] *)
Fixpoint dict_get (key : str) (items : list (str * JSON)) : option JSON :=
  match items with
  | [] => None
  | (k, v) :: rest => if str_eqb key k then Some v else dict_get key rest
  end.

(** [list(d.keys())] *)
Definition dict_keys (items : list (str * JSON)) : list str :=
  map fst items.

(** The two routines of the Python runtime on floats that the code calls
    and that are kept abstract: [repr(x)] (used by f-strings and by
    [json.dumps]) and [round(x, 2)]. *)
Record PyFloat : Type := {
  float_repr : float -> str;
  round2 : float -> float
}.

(* ================================================================== *)
(** * The payload validator *)
(* ================================================================== *)

Module Validation.
(** The dictionary [validate_weather_response] builds. *)
Record t : Type := mk {
  is_valid : bool;
  errors : list str;
  warnings : list str;
  found_fields : list str
}.
End Validation.

Definition add_error (e : str) (v : Validation.t) : Validation.t :=
  Validation.mk false (Validation.errors v ++ [e])
                (Validation.warnings v) (Validation.found_fields v).

Definition add_warning (w : str) (v : Validation.t) : Validation.t :=
  Validation.mk (Validation.is_valid v) (Validation.errors v)
                (Validation.warnings v ++ [w]) (Validation.found_fields v).

Definition required_fields : list str :=
  [lit "city"; lit "temperature"; lit "description"].

(** The loop that collects the required fields absent from [data]. *)
Definition missing_fields (items : list (str * JSON)) : list str :=
  filter (fun field => negb (dict_has field items)) required_fields.

(** [isinstance(temp, (int, float))]: [bool] is a subclass of [int]. *)
Definition is_int_or_float (j : JSON) : bool :=
  match j with
  | JBool _ | JInt _ | JFloat _ => true
  | _ => false
  end.

(** [temp < -100 or temp > 70] for a value that passed the [isinstance]
    test; [True] and [False] compare as 1 and 0, a NaN compares false. *)
Definition is_extreme (j : JSON) : bool :=
  match j with
  | JBool b => (Z.b2z b <? -100) || (70 <? Z.b2z b)
  | JInt z => (z <? -100) || (70 <? z)
  | JFloat f => SFltb f float_m100 || SFltb float_70 f
  | _ => false
  end.

(** [f"{temp}"] for a value that passed the [isinstance] test. *)
Definition format_number (py : PyFloat) (j : JSON) : str :=
  match j with
  | JBool true => lit "True"
  | JBool false => lit "False"
  | JInt z => str_of_Z z
  | JFloat f => float_repr py f
  | _ => []
  end.

(** The degree sign of the warning text, U+00B0. *)
Definition degree_sign : N := 176%N.

Definition extreme_warning (py : PyFloat) (temp : JSON) : str :=
  lit "Temperature " ++ format_number py temp
      ++ [degree_sign] ++ lit "C seems extreme".

(** [not isinstance(x, str) or len(x.strip()) == 0] *)
Definition empty_or_not_str (j : JSON) : bool :=
  match j with
  | JStr s => Nat.eqb (List.length (strip s)) 0
  | _ => true
  end.

Definition check_missing (items : list (str * JSON)) (v : Validation.t)
  : Validation.t :=
  match missing_fields items with
  | [] => v
  | missing =>
      add_error (lit "Missing required fields: " ++ join (lit ", ") missing) v
  end.

Definition check_temperature (py : PyFloat) (items : list (str * JSON))
    (v : Validation.t) : Validation.t :=
  match dict_get (lit "temperature") items with
  | Some temp =>
      if negb (is_int_or_float temp)
      then add_error (lit "Temperature is not numeric") v
      else if is_extreme temp
           then add_warning (extreme_warning py temp) v
           else v
  | None => v
  end.

Definition check_description (items : list (str * JSON)) (v : Validation.t)
  : Validation.t :=
  match dict_get (lit "description") items with
  | Some desc =>
      if empty_or_not_str desc
      then add_error (lit "Weather description is empty or invalid") v
      else v
  | None => v
  end.

Definition check_city (items : list (str * JSON)) (v : Validation.t)
  : Validation.t :=
  match dict_get (lit "city") items with
  | Some returned_city =>
      if empty_or_not_str returned_city
      then add_error (lit "City name is empty or invalid") v
      else v
  | None => v
  end.

(** [WeatherAPITester.validate_weather_response(data, city, test_type)].
    The method reads neither [self] nor its [city] and [test_type]
    arguments. *)
Definition validate_weather_response (py : PyFloat) (data : JSON)
    (city test_type : str) : Validation.t :=
  match data with
  | JDict items =>
      let validation := Validation.mk true [] [] (dict_keys items) in
      let validation := check_missing items validation in
      let validation := check_temperature py items validation in
      let validation := check_description items validation in
      check_city items validation
  | _ =>
      add_error (lit "Response is not a JSON object")
                (Validation.mk true [] [] [])
  end.

(** A stand-in for the float routines in the concrete runs below: no
    float is printed there, and the only times rounded are 0.0 and
    12000.0, which [round(_, 2)] returns as they are. *)
Definition py0 : PyFloat :=
  {| float_repr := fun _ => lit "<float>"; round2 := fun f => f |}.

(** 18.5 and -150.0 as binary64 values. *)
Definition float_18_5 : float := S754_finite false (37 * 2 ^ 47) (-48).
Definition float_m150 : float := S754_finite true (150 * 2 ^ 45) (-45).

Definition scenario_B : JSON :=
  JDict [(lit "city", JStr (lit "Paris"));
         (lit "temperature", JFloat float_18_5);
         (lit "description", JStr (lit "Clear"))].

Definition scenario_D : JSON :=
  JDict [(lit "city", JStr (lit "Rome"));
         (lit "temperature", JStr (lit "hot"));
         (lit "description", JStr (lit "Sunny"))].

Definition scenario_E : JSON :=
  JDict [(lit "city", JStr (lit "Oslo"));
         (lit "temperature", JInt (-150));
         (lit "description", JStr (lit "Freezing"))].

(* ================================================================== *)
(** * [json.dumps] *)
(* ================================================================== *)

Definition hex_digit (n : N) : N :=
  (if n <? 10 then 48 + n else 87 + n)%N.

(** The escape [\uXXXX], four lower-case hexadecimal digits. *)
Definition unicode_escape (c : N) : str :=
  [92; 117; hex_digit ((c / 4096) mod 16); hex_digit ((c / 256) mod 16);
   hex_digit ((c / 16) mod 16); hex_digit (c mod 16)]%N.

(** One character under [ensure_ascii=True]: printable ASCII is kept,
    the quote, the backslash and the five short escapes are spelled out,
    everything else becomes one [\uXXXX] or a surrogate pair. *)
Definition escape_char (c : N) : str :=
  (if c =? 34 then [92; 34]
   else if c =? 92 then [92; 92]
   else if c =? 10 then [92; 110]
   else if c =? 13 then [92; 114]
   else if c =? 9 then [92; 116]
   else if c =? 12 then [92; 102]
   else if c =? 8 then [92; 98]
   else if (32 <=? c) && (c <=? 126) then [c]
   else if 65536 <=? c
        then unicode_escape (55296 + ((c - 65536) / 1024) mod 1024)
             ++ unicode_escape (56320 + (c - 65536) mod 1024)
        else unicode_escape c)%N.

Definition encode_basestring_ascii (s : str) : str :=
  [34%N] ++ flat_map escape_char s ++ [34%N].

(** [float.__repr__] as [json] wraps it: the three non-finite values
    have names of their own. *)
Definition json_float (py : PyFloat) (f : float) : str :=
  match f with
  | S754_nan => lit "NaN"
  | S754_infinity false => lit "Infinity"
  | S754_infinity true => lit "-Infinity"
  | _ => float_repr py f
  end.

(** [json.dumps(data)] with the default separators. *)
Fixpoint json_dumps (py : PyFloat) (j : JSON) : str :=
  match j with
  | JNull => lit "null"
  | JBool true => lit "true"
  | JBool false => lit "false"
  | JInt z => str_of_Z z
  | JFloat f => json_float py f
  | JStr s => encode_basestring_ascii s
  | JList l => lit "[" ++ join (lit ", ") (map (json_dumps py) l) ++ lit "]"
  | JDict items =>
      lit "{"
      ++ join (lit ", ")
           (map (fun kv => encode_basestring_ascii (fst kv) ++ lit ": "
                           ++ json_dumps py (snd kv)) items)
      ++ lit "}"
  end.

(* ================================================================== *)
(** * Exceptions, the network and the clock *)
(* ================================================================== *)

(** The exceptions, all deriving from [Exception], by the classes the
    handlers tell apart.  An exception that is both a [Timeout] and a
    [ConnectionError] (requests' [ConnectTimeout]) is a [Timeout] here:
    the [except Timeout] clause comes first.  [OtherException] stands for
    every other class. *)
Inductive exn : Type :=
| Timeout (msg : str)
| ConnectionError (msg : str)
| JSONDecodeError (msg : str)
| OtherException (msg : str).

(** [str(e)] *)
Definition exn_str (e : exn) : str :=
  match e with
  | Timeout m | ConnectionError m | JSONDecodeError m | OtherException m => m
  end.

Module Response.
(** What the code reads of a [requests.Response]: [status_code],
    [text], and what [json()] returns or raises. *)
Record t : Type := mk {
  status_code : Z;
  text : str;
  json : exn + JSON
}.
End Response.

(** What the world has seen of one tester so far: the requests of its
    session, oldest first, each with its timeout, and how often the clock
    was read. *)
Record World : Type := mkWorld {
  requests : list (str * Z);
  clock_reads : nat
}.

(** The environment: how the [n]-th request of the session ends, given
    its URL and timeout, and what the [n]-th reading of the clock gives,
    as [time.time()] and as [datetime.now().isoformat()]. *)
Record Env : Type := {
  session_get : nat -> str -> Z -> exn + Response.t;
  time_time : nat -> float;
  now_isoformat : nat -> str
}.

(** A computation over a state [S] that may raise. *)
Definition M (S A : Type) : Type := S -> (exn + A) * S.

Definition ret {S A} (a : A) : M S A := fun s => (inr a, s).

Definition raise {S A} (e : exn) : M S A := fun s => (inl e, s).

Definition bind {S A B} (m : M S A) (k : A -> M S B) : M S B :=
  fun s =>
    match m s with
    | (inr a, s') => k a s'
    | (inl e, s') => (inl e, s')
    end.

(** [try: m  except e: h e], the handler running in the state the
    exception left. *)
Definition try_except {S A} (m : M S A) (h : exn -> M S A) : M S A :=
  fun s =>
    match m s with
    | (inr a, s') => (inr a, s')
    | (inl e, s') => h e s'
    end.

Definition modify {S} (f : S -> S) : M S unit := fun s => (inr tt, f s).

Definition of_sum {S A} (x : exn + A) : M S A :=
  match x with
  | inl e => raise e
  | inr a => ret a
  end.

Notation "x <- m ;; k" := (bind m (fun x => k))
  (at level 61, m at next level, right associativity).
Notation "m ;;; k" := (bind m (fun _ => k))
  (at level 61, right associativity).

(** The world after one more request. *)
Definition sent (w : World) (url : str) (timeout : Z) : World :=
  mkWorld (requests w ++ [(url, timeout)]) (clock_reads w).

(** The world after one more reading of the clock. *)
Definition tick (w : World) : World :=
  mkWorld (requests w) (S (clock_reads w)).

(** [self.session.get(url, timeout=timeout)] *)
Definition get (env : Env) (url : str) (timeout : Z) : M World Response.t :=
  fun w =>
    (session_get env (List.length (requests w)) url timeout,
     sent w url timeout).

(** [time.time()] *)
Definition time (env : Env) : M World float :=
  fun w => (inr (time_time env (clock_reads w)), tick w).

(** [datetime.now().isoformat()] *)
Definition now (env : Env) : M World str :=
  fun w => (inr (now_isoformat env (clock_reads w)), tick w).

(* ================================================================== *)
(** * The tester and its endpoint prober *)
(* ================================================================== *)

Record WeatherAPITester : Type := {
  api_base_url : str;
  valid_cities : list str
}.

Definition known_valid_cities : list str :=
  map lit
    ["London"; "New York"; "Tokyo"; "Paris"; "Berlin"; "Sydney"; "Mumbai";
     "Cairo"; "Moscow"; "Beijing"; "Rome"; "Madrid"; "Toronto"; "Bangkok";
     "Seoul"; "Dubai"; "Singapore"; "Amsterdam"; "Stockholm"; "Vienna";
     "Prague"; "Budapest"; "Warsaw"; "Helsinki"; "Oslo"; "Copenhagen";
     "Zurich"; "Brussels"; "Lisbon"; "Athens"; "Istanbul"; "Delhi";
     "Bangalore"; "Chennai"; "Los Angeles"; "Chicago"; "Houston"; "Phoenix";
     "Philadelphia"; "San Antonio"; "San Diego"; "Dallas"; "San Jose";
     "Austin"; "Jacksonville"; "Fort Worth"; "Columbus"; "Charlotte";
     "Seattle"; "Denver"]%string.

(** [WeatherAPITester(api_base_url)] *)
Definition init (base_url : str) : WeatherAPITester :=
  {| api_base_url := rstrip_char 47%N base_url;
     valid_cities := known_valid_cities |}.

Definition test_endpoints (self : WeatherAPITester) : list str :=
  [api_base_url self ++ lit "/api/health";
   api_base_url self ++ lit "/api/info";
   api_base_url self ++ lit "/weather?city=test";
   api_base_url self ++ lit "/api/weather/test"].

(** The [try] body of the first loop; [true] stands for [return True]. *)
Definition probe_described (env : Env) (py : PyFloat) (endpoint : str)
  : M World bool :=
  response <- get env endpoint 5 ;;
  if Response.status_code response =? 200 then
    data <- of_sum (Response.json response) ;;
    let response_text := lower (json_dumps py data) in
    ret (contains (lit "weather") response_text
         && contains (lit "endpoint") response_text)
  else ret false.

(** The [try] body of the second loop. *)
Definition probe_direct (env : Env) (endpoint : str) : M World bool :=
  response <- get env endpoint 5 ;;
  let status := Response.status_code response in
  ret ((status =? 200) || (status =? 400) || (status =? 404)).

(** [for endpoint in endpoints: try: body  except: continue] *)
Fixpoint probe_loop (body : str -> M World bool) (endpoints : list str)
  : M World bool :=
  match endpoints with
  | [] => ret false
  | endpoint :: rest =>
      found <- try_except (body endpoint) (fun _ => ret false) ;;
      if found then ret true else probe_loop body rest
  end.

(** [WeatherAPITester.check_for_weather_endpoints()] *)
Definition check_for_weather_endpoints (env : Env) (py : PyFloat)
    (self : WeatherAPITester) : M World bool :=
  found <- probe_loop (probe_described env py) (firstn 2 (test_endpoints self)) ;;
  if found then ret true
  else probe_loop (probe_direct env) (skipn 2 (test_endpoints self)).

(* ================================================================== *)
(** * Test results *)
(* ================================================================== *)

(** [response_time_ms]: the [int] 0 the dictionary starts with, or the
    [float] that [round] returned. *)
Inductive Number : Type :=
| NInt (z : Z)
| NFloat (f : float).

(** [validation_results]: the empty dictionary, the validator's report,
    or the three-key dictionary of a mock result. *)
Inductive ValidationResults : Type :=
| NoValidation
| Report (v : Validation.t)
| MockReport (is_valid : bool) (errors : list str) (note : str).

(** [validation_results["is_valid"]], when the key is there. *)
Definition reported_valid (v : ValidationResults) : option bool :=
  match v with
  | NoValidation => None
  | Report r => Some (Validation.is_valid r)
  | MockReport b _ _ => Some b
  end.

Module TestResult.
(** The dictionary [test_api_endpoint] returns. *)
Record t : Type := mk {
  timestamp : str;
  city : str;
  test_type : str;
  passed : bool;
  api_endpoint : option str;
  status_code : option Z;
  response_time_ms : Number;
  response_data : option JSON;
  errors : list str;
  validation_results : ValidationResults
}.

(** [result.update({"api_endpoint": e, "status_code": c,
    "response_time_ms": ms})] *)
Definition update (e : str) (c : Z) (ms : Number) (r : t) : t :=
  mk (timestamp r) (city r) (test_type r) (passed r) (Some e) (Some c) ms
     (response_data r) (errors r) (validation_results r).

Definition set_passed (b : bool) (r : t) : t :=
  mk (timestamp r) (city r) (test_type r) b (api_endpoint r) (status_code r)
     (response_time_ms r) (response_data r) (errors r) (validation_results r).

Definition set_status_code (c : Z) (r : t) : t :=
  mk (timestamp r) (city r) (test_type r) (passed r) (api_endpoint r) (Some c)
     (response_time_ms r) (response_data r) (errors r) (validation_results r).

Definition set_response_data (d : JSON) (r : t) : t :=
  mk (timestamp r) (city r) (test_type r) (passed r) (api_endpoint r)
     (status_code r) (response_time_ms r) (Some d) (errors r)
     (validation_results r).

Definition set_errors (es : list str) (r : t) : t :=
  mk (timestamp r) (city r) (test_type r) (passed r) (api_endpoint r)
     (status_code r) (response_time_ms r) (response_data r) es
     (validation_results r).

Definition set_validation_results (v : ValidationResults) (r : t) : t :=
  mk (timestamp r) (city r) (test_type r) (passed r) (api_endpoint r)
     (status_code r) (response_time_ms r) (response_data r) (errors r) v.

(** [result["errors"].append(e)] *)
Definition append_error (e : str) (r : t) : t :=
  set_errors (errors r ++ [e]) r.
End TestResult.

(* ================================================================== *)
(** * The mock result synthesizer *)
(* ================================================================== *)

(** [(time.time() - start_time) * 1000] *)
Definition elapsed_ms (t start_time : float) : float :=
  SFmul prec emax (SFsub prec emax t start_time) float_1000.

Definition canonical_markers : list str :=
  [lit ""; lit "   "; lit "XYZ123NotReal"; lit "123456"].

(** [WeatherAPITester.create_mock_test_result(city, test_type, start_time)].
    The three dictionaries differ in [passed], [errors] and
    [validation_results] only; each reads the clock once more for its
    timestamp. *)
Definition create_mock_test_result (env : Env) (py : PyFloat)
    (self : WeatherAPITester) (city test_type : str) (start_time : float)
  : M World TestResult.t :=
  t <- time env ;;
  let response_time := elapsed_ms t start_time in
  let mock passed errors validation :=
    timestamp <- now env ;;
    ret (TestResult.mk timestamp city test_type passed
           (Some (api_base_url self ++ lit "/weather?city=" ++ city))
           (Some 404) (NFloat (round2 py response_time)) None
           errors validation) in
  if str_eqb test_type (lit "invalid") && str_in (strip city) canonical_markers
  then
    mock true
      [lit "No weather API endpoints found - this is expected for invalid inputs"]
      (MockReport true [] (lit "No API to validate"))
  else if str_eqb test_type (lit "valid") && str_in city (valid_cities self)
  then
    mock false
      [lit "No weather API endpoints found - add weather routes to your Flask app"]
      (MockReport false [lit "No API endpoint"] (lit "Frontend-only app"))
  else
    mock false
      [lit "Target app has no weather API - only serves frontend files"]
      (MockReport false [lit "No backend API"]
                  (lit "Need to add weather endpoints")).

(* ================================================================== *)
(** * The dispatcher *)
(* ================================================================== *)

(** The state of the endpoint loop: the world and the [result]
    dictionary the loop mutates. *)
Record Frame : Type := mkFrame {
  world : World;
  result : TestResult.t
}.

(** A computation on the world, run inside the loop. *)
Definition in_world {A} (m : M World A) : M Frame A :=
  fun fr =>
    let (o, w) := m (world fr) in (o, mkFrame w (result fr)).

(** A mutation of [result]. *)
Definition on_result (f : TestResult.t -> TestResult.t) : M Frame unit :=
  modify (fun fr => mkFrame (world fr) (f (result fr))).

(** How one turn of the [for] loop ends. *)
Inductive Control : Type := Break | Continue.

Definition possible_endpoints (self : WeatherAPITester) (city : str)
  : list str :=
  [api_base_url self ++ lit "/api/weather/" ++ city;
   api_base_url self ++ lit "/weather?city=" ++ city;
   api_base_url self ++ lit "/api/weather?city=" ++ city;
   api_base_url self ++ lit "/weather/" ++ city].

(** [status_code in [404, 400, 422]] *)
Definition is_rejection (status : Z) : bool :=
  (status =? 404) || (status =? 400) || (status =? 422).

(** The inner [try] of the 200 branch, with its
    [except json.JSONDecodeError]; any other exception goes on to the
    outer handlers. *)
Definition read_and_validate (py : PyFloat) (city test_type : str)
    (response : Response.t) : M Frame unit :=
  try_except
    (data <- of_sum (Response.json response) ;;
     on_result (TestResult.set_response_data data) ;;;
     let validation := validate_weather_response py data city test_type in
     on_result (TestResult.set_validation_results (Report validation)) ;;;
     on_result (TestResult.set_passed (Validation.is_valid validation)) ;;;
     on_result (TestResult.set_errors (Validation.errors validation)))
    (fun e =>
       match e with
       | JSONDecodeError _ =>
           on_result (TestResult.append_error (lit "Response is not valid JSON"))
       | _ => raise e
       end).

(** The outer [try] body of one turn of the loop. *)
Definition attempt (env : Env) (py : PyFloat) (city test_type : str)
    (start_time : float) (endpoint : str) : M Frame Control :=
  response <- in_world (get env endpoint 10) ;;
  t <- in_world (time env) ;;
  let response_time := elapsed_ms t start_time in
  let status := Response.status_code response in
  on_result (TestResult.update endpoint status
               (NFloat (round2 py response_time))) ;;;
  if status =? 200 then
    read_and_validate py city test_type response ;;;
    ret Break
  else if is_rejection status && str_eqb test_type (lit "invalid") then
    on_result (TestResult.set_passed true) ;;;
    on_result (TestResult.append_error
                 (lit "Correctly returned error " ++ str_of_Z status
                      ++ lit " for invalid input")) ;;;
    ret Break
  else if status =? 404 then
    ret Continue
  else
    on_result (TestResult.append_error
                 (lit "HTTP " ++ str_of_Z status ++ lit ": "
                      ++ firstn 100 (Response.text response))) ;;;
    ret Break.

(** The sentinel status and the message of each outer [except] clause. *)
Definition fault_status (e : exn) : Z :=
  match e with
  | Timeout _ => 408
  | ConnectionError _ => 0
  | _ => 500
  end.

Definition fault_message (e : exn) : str :=
  match e with
  | Timeout _ => lit "Request timeout (>10 seconds)"
  | ConnectionError _ => lit "Connection error - API might be down"
  | _ => lit "Unexpected error: " ++ exn_str e
  end.

(** The three outer [except] clauses: each appends its message, sets the
    status and breaks. *)
Definition on_fault (e : exn) : M Frame Control :=
  on_result (TestResult.append_error (fault_message e)) ;;;
  on_result (TestResult.set_status_code (fault_status e)) ;;;
  ret Break.

(** [for endpoint in possible_endpoints: try: ... except ...] *)
Fixpoint endpoint_loop (env : Env) (py : PyFloat) (city test_type : str)
    (start_time : float) (endpoints : list str) : M Frame unit :=
  match endpoints with
  | [] => ret tt
  | endpoint :: rest =>
      c <- try_except (attempt env py city test_type start_time endpoint)
                      on_fault ;;
      match c with
      | Break => ret tt
      | Continue => endpoint_loop env py city test_type start_time rest
      end
  end.

(** What follows the loop: the check on [api_endpoint]. *)
Definition finish (r : TestResult.t) : TestResult.t :=
  match TestResult.api_endpoint r with
  | None => TestResult.append_error (lit "No valid API endpoint found") r
  | Some _ => r
  end.

(** The [result] dictionary before the gate. *)
Definition initial_result (timestamp city test_type : str) : TestResult.t :=
  TestResult.mk timestamp city test_type false None None (NInt 0) None []
                NoValidation.

(** Runs the loop on a fresh [result] and returns what it has become. *)
Definition run_loop (m : M Frame unit) (r0 : TestResult.t)
  : M World TestResult.t :=
  fun w =>
    match m (mkFrame w r0) with
    | (inr _, fr) => (inr (finish (result fr)), world fr)
    | (inl e, fr) => (inl e, world fr)
    end.

(** [WeatherAPITester.test_api_endpoint(city, test_type)] *)
Definition test_api_endpoint (env : Env) (py : PyFloat)
    (self : WeatherAPITester) (city test_type : str)
  : M World TestResult.t :=
  start_time <- time env ;;
  timestamp <- now env ;;
  api_has_endpoints <- check_for_weather_endpoints env py self ;;
  if negb api_has_endpoints then
    create_mock_test_result env py self city test_type start_time
  else
    run_loop (endpoint_loop env py city test_type start_time
                (possible_endpoints self city))
             (initial_result timestamp city test_type).

(* ================================================================== *)
(** * Vocabulary of the statements *)
(* ================================================================== *)

Definition is_dict (data : JSON) : bool :=
  match data with
  | JDict _ => true
  | _ => false
  end.

(** The errors of the three field checks that follow the check for
    missing fields. *)
Definition field_errors : list str :=
  [lit "Temperature is not numeric";
   lit "Weather description is empty or invalid";
   lit "City name is empty or invalid"].

(** A report that was rejected with [msg] as its first error, every
    later error being one of the field checks'. *)
Definition rejected_with (msg : str) (v : Validation.t) : Prop :=
  Validation.is_valid v = false /\
  exists rest, Validation.errors v = msg :: rest /\
               Forall (fun e => In e field_errors) rest.

(** A self-describing endpoint confirms the API: it answers 200 with a
    JSON body whose lower-cased serialization mentions both words. *)
Definition confirms_described (py : PyFloat) (o : exn + Response.t) : bool :=
  match o with
  | inr response =>
      (Response.status_code response =? 200) &&
      match Response.json response with
      | inr data =>
          contains (lit "weather") (lower (json_dumps py data))
          && contains (lit "endpoint") (lower (json_dumps py data))
      | inl _ => false
      end
  | inl _ => false
  end.

(** A direct-guess endpoint confirms the API: it answers 200, 400 or
    404. *)
Definition confirms_direct (o : exn + Response.t) : bool :=
  match o with
  | inr response =>
      (Response.status_code response =? 200)
      || (Response.status_code response =? 400)
      || (Response.status_code response =? 404)
  | inl _ => false
  end.

(** The invariant of a result that passed: the report it carries says
    valid, or the test was of type "invalid" and the status recorded is
    one of 400, 404, 422. *)
Definition passes_rightly (r : TestResult.t) : Prop :=
  TestResult.passed r = true ->
  reported_valid (TestResult.validation_results r) = Some true \/
  (TestResult.test_type r = lit "invalid" /\
   (TestResult.status_code r = Some 400 \/
    TestResult.status_code r = Some 404 \/
    TestResult.status_code r = Some 422)).

(** The answer to the [k]-th request issued from world [w] on. *)
Definition answer (env : Env) (w : World) (k : nat) (url : str)
    (timeout : Z) : exn + Response.t :=
  session_get env (List.length (requests w) + k)%nat url timeout.

(** None of the four probes, as issued from [w], gives evidence. *)
Definition no_evidence (env : Env) (py : PyFloat) (self : WeatherAPITester)
    (w : World) : Prop :=
  confirms_described py
    (answer env w 0 (api_base_url self ++ lit "/api/health") 5) = false /\
  confirms_described py
    (answer env w 1 (api_base_url self ++ lit "/api/info") 5) = false /\
  confirms_direct
    (answer env w 2 (api_base_url self ++ lit "/weather?city=test") 5) = false /\
  confirms_direct
    (answer env w 3 (api_base_url self ++ lit "/api/weather/test") 5) = false.

(** The world after the two clock readings that open
    [test_api_endpoint]. *)
Definition started (w : World) : World := tick (tick w).

(** [possible_endpoints[k]] *)
Definition candidate (self : WeatherAPITester) (city : str) (k : nat) : str :=
  nth k (possible_endpoints self city) [].

(* ================================================================== *)
(** * Concrete runs *)
(* ================================================================== *)

Definition w0 : World := mkWorld [] 0.

Definition tester : WeatherAPITester := init (lit "http://localhost:5000/").

(** 12.0: the clock reads 0.0 first and 12.0 from then on. *)
Definition float_12 : float := S754_finite false (12 * 2 ^ 49) (-49).

Definition clock0 (n : nat) : float :=
  match n with
  | O => S754_zero false
  | S _ => float_12
  end.

Definition stamp (n : nat) : str := lit "2024-01-01T00:00:00".

Definition not_found : Response.t :=
  Response.mk 404 (lit "Not Found")
              (inl (JSONDecodeError (lit "Expecting value"))).

(** A target that answers every request with 404. *)
Definition env_all_404 : Env :=
  {| session_get := fun _ _ _ => inr not_found;
     time_time := clock0;
     now_isoformat := stamp |}.

(** A target that refuses every connection. *)
Definition env_refused : Env :=
  {| session_get := fun _ _ _ =>
       inl (ConnectionError (lit "Connection refused"));
     time_time := clock0;
     now_isoformat := stamp |}.

(** A target that answers the three probes with 404 and then lets every
    request time out. *)
Definition env_timeout : Env :=
  {| session_get := fun n _ _ =>
       if Nat.ltb n 3 then inr not_found
       else inl (Timeout (lit "Read timed out."));
     time_time := clock0;
     now_isoformat := stamp |}.

(** A target that answers the three probes with 404 and then serves the
    payload of scenario B. *)
Definition env_paris : Env :=
  {| session_get := fun n _ _ =>
       if Nat.ltb n 3 then inr not_found
       else inr (Response.mk 200 (lit "(the body of scenario B)")
                             (inr scenario_B));
     time_time := clock0;
     now_isoformat := stamp |}.

(** A target that answers the three probes with 404 and then answers
    every request with 500. *)
Definition env_500 : Env :=
  {| session_get := fun n _ _ =>
       if Nat.ltb n 3 then inr not_found
       else inr (Response.mk 500 (lit "Internal Server Error")
                             (inl (JSONDecodeError (lit "Expecting value"))));
     time_time := clock0;
     now_isoformat := stamp |}.

(** A target that answers the three probes with 404 and then answers
    every request with 200 and a body that is not JSON. *)
Definition env_html : Env :=
  {| session_get := fun n _ _ =>
       if Nat.ltb n 3 then inr not_found
       else inr (Response.mk 200 (lit "<html></html>")
                             (inl (JSONDecodeError (lit "Expecting value"))));
     time_time := clock0;
     now_isoformat := stamp |}.

(** A target that answers the three probes with 404 and then answers
    every request with 200 while [json()] raises an exception that is not
    a [json.JSONDecodeError]. *)
Definition env_other_decoder : Env :=
  {| session_get := fun n _ _ =>
       if Nat.ltb n 3 then inr not_found
       else inr (Response.mk 200 (lit "<html></html>")
                             (inl (OtherException (lit "Expecting value"))));
     time_time := clock0;
     now_isoformat := stamp |}.

(** The world once the three probes of these targets are logged. *)
Definition probed : World :=
  mkWorld [(lit "http://localhost:5000/api/health", 5);
           (lit "http://localhost:5000/api/info", 5);
           (lit "http://localhost:5000/weather?city=test", 5)] 2.

(** A payload whose temperature is the JSON literal [true]. *)
Definition temperature_true : JSON :=
  JDict [(lit "city", JStr (lit "Rome"));
         (lit "temperature", JBool true);
         (lit "description", JStr (lit "Sunny"))].

(* ================================================================== *)
(** * Vocabulary of the further statements *)
(* ================================================================== *)

(** The entries the session logs for requests to [urls], in order, all
    with one timeout. *)
Definition with_timeout (timeout : Z) (urls : list str) : list (str * Z) :=
  map (fun url => (url, timeout)) urls.

(** A probe without evidence: its request raised, or its answer does
    not confirm. *)
Definition silent (confirms : exn + Response.t -> bool)
    (o : exn + Response.t) : Prop :=
  (exists e, o = inl e) \/ confirms o = false.

(** A report with its [found_fields] replaced. *)
Definition with_found_fields (fields : list str) (v : Validation.t)
  : Validation.t :=
  Validation.mk (Validation.is_valid v) (Validation.errors v)
                (Validation.warnings v) fields.

(** How many probes the prober sends, given which of the first three
    confirm. *)
Definition probes_sent (c0 c1 d2 : bool) : nat :=
  if c0 then 1 else if c1 then 2 else if d2 then 3 else 4.

(** A result that no turn of the loop has settled: it still has the
    fields it started with, but for the endpoint, status and time that
    every answered request overwrites. *)
Definition unsettled (timestamp city test_type : str) (r : TestResult.t)
  : Prop :=
  TestResult.timestamp r = timestamp /\
  TestResult.city r = city /\
  TestResult.test_type r = test_type /\
  TestResult.passed r = false /\
  TestResult.errors r = [] /\
  TestResult.response_data r = None /\
  TestResult.validation_results r = NoValidation.

(** The three ways a turn that breaks leaves the result: passed on a
    200 whose payload the validator accepts; passed on a rejected
    "invalid" input; or not passed, with an error to show. *)
Definition settled (py : PyFloat) (city test_type : str) (r : TestResult.t)
  : Prop :=
  (TestResult.passed r = true /\
   TestResult.errors r = [] /\
   TestResult.status_code r = Some 200 /\
   TestResult.api_endpoint r <> None /\
   exists data,
     TestResult.response_data r = Some data /\
     TestResult.validation_results r
     = Report (validate_weather_response py data city test_type) /\
     Validation.is_valid (validate_weather_response py data city test_type)
     = true) \/
  (TestResult.passed r = true /\
   test_type = lit "invalid" /\
   exists status,
     is_rejection status = true /\
     TestResult.status_code r = Some status /\
     TestResult.errors r
     = [lit "Correctly returned error " ++ str_of_Z status
            ++ lit " for invalid input"]) \/
  (TestResult.passed r = false /\ TestResult.errors r <> []).

(* ================================================================== *)
(** * Strings *)
(* ================================================================== *)

Lemma str_eqb_eq (a b : str) : str_eqb a b = true <-> a = b.
Proof.
  revert b; induction a as [|x a IH]; intros [|y b]; simpl;
    try (split; [discriminate | discriminate]); try tauto.
  rewrite andb_true_iff, N.eqb_eq, IH.
  split; [intros [-> ->]; reflexivity | intros H; inversion H; auto].
Qed.

Lemma str_eqb_refl (a : str) : str_eqb a a = true.
Proof. apply str_eqb_eq; reflexivity. Qed.

Lemma str_in_In (x : str) (xs : list str) : str_in x xs = true <-> In x xs.
Proof.
  unfold str_in; rewrite existsb_exists; split.
  - intros (y & Hy & E); apply str_eqb_eq in E; subst; assumption.
  - intros H; exists x; split; [assumption | apply str_eqb_refl].
Qed.

(** What [lstrip] leaves is empty or starts with a character that is not
    a space. *)
Lemma lstrip_head (s : str) :
  lstrip s = [] \/ exists c t, lstrip s = c :: t /\ is_space c = false.
Proof.
  induction s as [|c s IH]; simpl; [left; reflexivity|].
  destruct (is_space c) eqn:E; [exact IH | right; exists c, s; auto].
Qed.

(** No trimmed string is the three-blank marker: of the four markers the
    mock synthesizer compares with, a trimmed city can only equal the
    other three. *)
Lemma strip_never_blank (s : str) : strip s <> lit "   ".
Proof.
  unfold strip, rstrip; intros H.
  apply (f_equal (@rev N)) in H; rewrite rev_involutive in H.
  change (rev (lit "   ")) with [32; 32; 32]%N in H.
  destruct (lstrip_head (rev (lstrip s))) as [E | (c & t & E & Hc)];
    rewrite E in H; [discriminate|].
  injection H as -> _; discriminate.
Qed.

(* ================================================================== *)
(** * The payload validator *)
(* ================================================================== *)

Lemma rejected_add_error msg e v :
  In e field_errors -> rejected_with msg v -> rejected_with msg (add_error e v).
Proof.
  intros He (_ & rest & Hv & Hrest); split; [reflexivity|].
  exists (rest ++ [e]); simpl; rewrite Hv; split; [reflexivity|].
  apply Forall_app; split; [assumption | constructor; auto].
Qed.

Lemma rejected_add_warning msg w v :
  rejected_with msg v -> rejected_with msg (add_warning w v).
Proof. intros H; exact H. Qed.

Lemma rejected_check_temperature msg py items v :
  rejected_with msg v -> rejected_with msg (check_temperature py items v).
Proof.
  intros H; unfold check_temperature.
  destruct (dict_get _ items) as [temp|]; [|assumption].
  destruct (negb (is_int_or_float temp)).
  - apply rejected_add_error; [simpl; auto | assumption].
  - destruct (is_extreme temp); [apply rejected_add_warning|]; assumption.
Qed.

Lemma rejected_check_description msg items v :
  rejected_with msg v -> rejected_with msg (check_description items v).
Proof.
  intros H; unfold check_description.
  destruct (dict_get _ items) as [desc|]; [|assumption].
  destruct (empty_or_not_str desc); [|assumption].
  apply rejected_add_error; [simpl; auto | assumption].
Qed.

Lemma rejected_check_city msg items v :
  rejected_with msg v -> rejected_with msg (check_city items v).
Proof.
  intros H; unfold check_city.
  destruct (dict_get _ items) as [c|]; [|assumption].
  destruct (empty_or_not_str c); [|assumption].
  apply rejected_add_error; [simpl; auto | assumption].
Qed.

(** C7 as stated fails: the payload of scenario B is a JSON value and
    its report has [is_valid] true. *)
Lemma valid_payload_is_valid :
  Validation.is_valid
    (validate_weather_response py0 scenario_B (lit "Paris") (lit "valid"))
  = true.
Proof. reflexivity. Qed.

(** C7, amended: for every JSON value that is not an object or that is an
    object lacking a required field, the report has [is_valid] false; if
    the value is not an object the report carries exactly the error
    "Response is not a JSON object" and no found field; if it is an object
    lacking a required field, the first error is the single combined one
    that lists the missing names of city, temperature, description in that
    order, comma-joined, and every other error comes from a field check. *)
Theorem validate_rejects_malformed (py : PyFloat) (data : JSON)
    (city test_type : str) :
  is_dict data = false \/
  (exists items, data = JDict items /\ missing_fields items <> []) ->
  let v := validate_weather_response py data city test_type in
  Validation.is_valid v = false /\
  (is_dict data = false ->
   Validation.errors v = [lit "Response is not a JSON object"] /\
   Validation.found_fields v = []) /\
  (forall items, data = JDict items -> missing_fields items <> [] ->
   missing_fields items
   = filter (fun field => negb (dict_has field items))
            [lit "city"; lit "temperature"; lit "description"] /\
   exists rest,
     Validation.errors v
     = (lit "Missing required fields: "
            ++ join (lit ", ") (missing_fields items)) :: rest /\
     Forall (fun e => In e field_errors) rest).
Proof.
  intros Hbad v.
  assert (Hdict : forall items, data = JDict items ->
            missing_fields items <> [] ->
            rejected_with (lit "Missing required fields: "
                               ++ join (lit ", ") (missing_fields items)) v).
  { intros items -> Hmiss; subst v; unfold validate_weather_response.
    apply rejected_check_city, rejected_check_description,
          rejected_check_temperature.
    unfold check_missing.
    destruct (missing_fields items) as [|m ms]; [congruence|].
    split; [reflexivity|]; exists []; split; [reflexivity | constructor]. }
  split; [|split].
  - destruct Hbad as [Hnot | (items & -> & Hmiss)].
    + subst v; destruct data; try discriminate; reflexivity.
    + exact (proj1 (Hdict items eq_refl Hmiss)).
  - intros Hnot; subst v; destruct data; try discriminate; split; reflexivity.
  - intros items E Hmiss; split; [reflexivity|].
    exact (proj2 (Hdict items E Hmiss)).
Qed.

Lemma validate_rejects_malformed_witness :
  Validation.is_valid
    (validate_weather_response py0 (JStr (lit "oops")) (lit "Rome") (lit "valid"))
  = false.
Proof.
  exact (proj1 (validate_rejects_malformed py0 (JStr (lit "oops"))
                  (lit "Rome") (lit "valid") (or_introl eq_refl))).
Defined.

(** What the temperature check does on a value that is none of [int],
    [float], [bool]: an error, and the report is invalid. *)
Lemma non_numeric_temperature_rejected (py : PyFloat)
    (items : list (str * JSON)) (v : Validation.t) (temp : JSON) :
  dict_get (lit "temperature") items = Some temp ->
  is_int_or_float temp = false ->
  check_temperature py items v = add_error (lit "Temperature is not numeric") v.
Proof. intros Hget Hnum; unfold check_temperature; rewrite Hget, Hnum; reflexivity. Qed.

(** What it does on an [int] or [float] below -100 or above 70: a warning
    only. *)
Lemma extreme_temperature_warns (py : PyFloat)
    (items : list (str * JSON)) (v : Validation.t) (temp : JSON) :
  dict_get (lit "temperature") items = Some temp ->
  is_int_or_float temp = true ->
  is_extreme temp = true ->
  check_temperature py items v = add_warning (extreme_warning py temp) v /\
  Validation.is_valid (check_temperature py items v) = Validation.is_valid v /\
  Validation.errors (check_temperature py items v) = Validation.errors v.
Proof.
  intros Hget Hnum Hext; unfold check_temperature.
  rewrite Hget, Hnum, Hext; repeat split.
Qed.

(** What it does on a [bool]: nothing, the value counts as an [int]
    between -100 and 70. *)
Lemma boolean_temperature_unchecked (py : PyFloat)
    (items : list (str * JSON)) (v : Validation.t) (b : bool) :
  dict_get (lit "temperature") items = Some (JBool b) ->
  check_temperature py items v = v.
Proof.
  intros Hget; unfold check_temperature; rewrite Hget; destruct b; reflexivity.
Qed.

(** C8 at the payload [{"city": "Rome", "temperature": true,
    "description": "Sunny"}]: the JSON literal [true] is neither an
    integer nor a floating-point number, yet the report has no error, no
    warning and [is_valid] true, because [isinstance(True, (int, float))]
    holds. *)
Theorem boolean_temperature_accepted (py : PyFloat) (city test_type : str) :
  validate_weather_response py temperature_true city test_type
  = Validation.mk true [] []
      [lit "city"; lit "temperature"; lit "description"].
Proof. reflexivity. Qed.

(** C10: the report depends on [data] alone: two calls on the same
    [data] with any cities and test types return the same report. *)
Theorem validate_ignores_city_and_test_type (py : PyFloat) (data : JSON)
    (city1 test_type1 city2 test_type2 : str) :
  validate_weather_response py data city1 test_type1
  = validate_weather_response py data city2 test_type2.
Proof. destruct data; reflexivity. Qed.

(* ================================================================== *)
(** * The endpoint prober *)
(* ================================================================== *)

Lemma length_sent w url timeout :
  List.length (requests (sent w url timeout)) = S (List.length (requests w)).
Proof. unfold sent; simpl; rewrite length_app; simpl; lia. Qed.

(** One turn of the first loop, with its bare [except]: it asks once and
    reports whether the answer confirms. *)
Lemma probe_described_turn env py endpoint w :
  try_except (probe_described env py endpoint) (fun _ => ret false) w
  = (inr (confirms_described py (answer env w 0 endpoint 5)),
     sent w endpoint 5).
Proof.
  unfold try_except, probe_described, bind, get, answer, confirms_described.
  rewrite Nat.add_0_r.
  destruct (session_get env _ endpoint 5) as [e|response]; [reflexivity|].
  destruct (Response.status_code response =? 200); [|reflexivity].
  destruct (Response.json response) as [e|data]; reflexivity.
Qed.

(** One turn of the second loop. *)
Lemma probe_direct_turn env endpoint w :
  try_except (probe_direct env endpoint) (fun _ => ret false) w
  = (inr (confirms_direct (answer env w 0 endpoint 5)), sent w endpoint 5).
Proof.
  unfold try_except, probe_direct, bind, get, answer, confirms_direct.
  rewrite Nat.add_0_r.
  destruct (session_get env _ endpoint 5) as [e|response]; reflexivity.
Qed.

Lemma answer_sent env w url timeout k url' timeout' :
  answer env (sent w url timeout) k url' timeout'
  = answer env w (S k) url' timeout'.
Proof.
  unfold answer; rewrite length_sent.
  replace (S (List.length (requests w)) + k)%nat
    with (List.length (requests w) + S k)%nat by lia.
  reflexivity.
Qed.

(** Every probe loop returns, whatever its body does. *)
Lemma probe_loop_returns body endpoints w :
  exists b w', probe_loop body endpoints w = (inr b, w').
Proof.
  revert w; induction endpoints as [|endpoint rest IH]; intros w; simpl.
  - exists false, w; reflexivity.
  - unfold bind, try_except.
    destruct (body endpoint w) as [[e|[|]] w1]; simpl.
    + apply IH.
    + exists true, w1; reflexivity.
    + apply IH.
Qed.

Lemma check_for_weather_endpoints_returns env py self w :
  exists b w', check_for_weather_endpoints env py self w = (inr b, w').
Proof.
  unfold check_for_weather_endpoints, bind.
  destruct (probe_loop_returns (probe_described env py)
              (firstn 2 (test_endpoints self)) w) as (b & w1 & ->).
  destruct b; [exists true, w1; reflexivity|].
  apply probe_loop_returns.
Qed.

(** C6: the prober never raises, whatever the HTTP client does, and when
    neither self-describing endpoint answers 200 with a JSON body whose
    lower-cased serialization contains both "weather" and "endpoint" and
    neither direct-guess endpoint answers 200, 400 or 404, it returns
    false. *)
Theorem probe_without_evidence (env : Env) (py : PyFloat)
    (self : WeatherAPITester) (w : World) :
  (exists b w', check_for_weather_endpoints env py self w = (inr b, w')) /\
  (no_evidence env py self w ->
   exists w', check_for_weather_endpoints env py self w = (inr false, w')).
Proof.
  split; [apply check_for_weather_endpoints_returns|].
  intros (H0 & H1 & H2 & H3).
  unfold check_for_weather_endpoints, test_endpoints; simpl.
  unfold bind at 1 2.
  rewrite probe_described_turn, H0.
  unfold bind at 1.
  rewrite probe_described_turn, answer_sent, H1.
  unfold ret at 1.
  unfold bind at 1.
  rewrite probe_direct_turn, !answer_sent, H2.
  unfold bind at 1.
  rewrite probe_direct_turn, !answer_sent, H3.
  eexists; reflexivity.
Qed.

Lemma probe_without_evidence_witness :
  exists w', check_for_weather_endpoints env_refused py0 tester w0
             = (inr false, w').
Proof.
  apply (proj2 (probe_without_evidence env_refused py0 tester w0)).
  repeat split.
Defined.

(* ================================================================== *)
(** * The dispatcher: one turn of the loop *)
(* ================================================================== *)

Arguments lit : simpl never.
Arguments str_of_Z : simpl never.
Arguments elapsed_ms : simpl never.
Arguments validate_weather_response : simpl never.

Ltac run_turn :=
  unfold try_except, attempt, read_and_validate, on_fault, bind, in_world,
    get, time, on_result, modify, of_sum, raise, ret; cbn.

(** A request that raises: the handler records the fault and breaks;
    nothing else of [result] changes. *)
Lemma turn_fault env py city test_type start_time endpoint fr e :
  answer env (world fr) 0 endpoint 10 = inl e ->
  try_except (attempt env py city test_type start_time endpoint) on_fault fr
  = (inr Break,
     mkFrame (sent (world fr) endpoint 10)
             (TestResult.set_status_code (fault_status e)
                (TestResult.append_error (fault_message e) (result fr)))).
Proof.
  unfold answer; rewrite Nat.add_0_r; intros H.
  run_turn; rewrite H; reflexivity.
Qed.

(** A 404 under a test type other than "invalid": the turn records the
    endpoint, the status and the time, and continues. *)
Lemma turn_continue env py city test_type start_time endpoint fr response :
  answer env (world fr) 0 endpoint 10 = inr response ->
  Response.status_code response = 404 ->
  test_type <> lit "invalid" ->
  try_except (attempt env py city test_type start_time endpoint) on_fault fr
  = (inr Continue,
     mkFrame (tick (sent (world fr) endpoint 10))
             (TestResult.update endpoint 404
                (NFloat (round2 py
                   (elapsed_ms (time_time env (clock_reads (world fr)))
                               start_time)))
                (result fr))).
Proof.
  unfold answer; rewrite Nat.add_0_r; intros H H404 Hty.
  run_turn; rewrite H; cbn; rewrite H404; cbn.
  destruct (str_eqb test_type (lit "invalid")) eqn:E; [|reflexivity].
  apply str_eqb_eq in E; contradiction.
Qed.

(** A 400, 404 or 422 under the test type "invalid": the turn marks the
    result passed, appends the confirmation and breaks. *)
Lemma turn_rejection env py city start_time endpoint fr response :
  answer env (world fr) 0 endpoint 10 = inr response ->
  is_rejection (Response.status_code response) = true ->
  try_except (attempt env py city (lit "invalid") start_time endpoint)
             on_fault fr
  = (inr Break,
     mkFrame (tick (sent (world fr) endpoint 10))
       (TestResult.append_error
          (lit "Correctly returned error "
               ++ str_of_Z (Response.status_code response)
               ++ lit " for invalid input")
          (TestResult.set_passed true
             (TestResult.update endpoint (Response.status_code response)
                (NFloat (round2 py
                   (elapsed_ms (time_time env (clock_reads (world fr)))
                               start_time)))
                (result fr))))).
Proof.
  unfold answer; rewrite Nat.add_0_r; intros H Hrej.
  run_turn; rewrite H; cbn.
  destruct (Response.status_code response =? 200) eqn:E200.
  - apply Z.eqb_eq in E200; rewrite E200 in Hrej; discriminate.
  - rewrite Hrej, str_eqb_refl; reflexivity.
Qed.

Lemma is_rejection_cases status :
  is_rejection status = true <-> status = 400 \/ status = 404 \/ status = 422.
Proof.
  unfold is_rejection; rewrite !orb_true_iff, !Z.eqb_eq; tauto.
Qed.

(** Under the test type "invalid" no turn continues: the first candidate
    is always the one that settles the result. *)
Lemma invalid_turn_breaks env py city start_time endpoint fr :
  exists fr',
    try_except (attempt env py city (lit "invalid") start_time endpoint)
               on_fault fr = (inr Break, fr').
Proof.
  run_turn.
  destruct (session_get env _ endpoint 10) as [e|response]; cbn;
    [eexists; reflexivity|].
  destruct (Response.status_code response =? 200) eqn:E200.
  - destruct (Response.json response) as [e|data]; cbn;
      [destruct e|]; cbn; eexists; reflexivity.
  - rewrite str_eqb_refl, andb_true_r.
    destruct (is_rejection (Response.status_code response)) eqn:Erej; cbn.
    + eexists; reflexivity.
    + destruct (Response.status_code response =? 404) eqn:E404;
        [|eexists; reflexivity].
      unfold is_rejection in Erej; rewrite E404 in Erej; discriminate.
Qed.

(** One turn from a result that has not passed: it never raises; if it
    continues the result still has not passed, and if it breaks the
    result passes rightly. *)
Lemma turn_invariant env py city test_type start_time endpoint fr :
  TestResult.passed (result fr) = false ->
  TestResult.test_type (result fr) = test_type ->
  exists c fr',
    try_except (attempt env py city test_type start_time endpoint) on_fault fr
    = (inr c, fr') /\
    TestResult.test_type (result fr') = test_type /\
    match c with
    | Continue => TestResult.passed (result fr') = false
    | Break => passes_rightly (result fr')
    end.
Proof.
  intros Hp Hty.
  assert (Hvac : forall r, TestResult.passed r = false -> passes_rightly r).
  { intros r Hr Ht; rewrite Hr in Ht; discriminate. }
  run_turn.
  destruct (session_get env _ endpoint 10) as [e|response]; cbn.
  { eexists _, _; split; [reflexivity|]; cbn; split; [assumption|].
    apply Hvac; assumption. }
  destruct (Response.status_code response =? 200) eqn:E200.
  { destruct (Response.json response) as [e|data]; cbn.
    - destruct e; cbn; (eexists _, _; split; [reflexivity|]; cbn;
        split; [assumption | apply Hvac; assumption]).
    - eexists _, _; split; [reflexivity|]; cbn; split; [assumption|].
      intros Hpass; left; cbn in *; rewrite Hpass; reflexivity. }
  destruct (is_rejection (Response.status_code response)) eqn:Erej; cbn.
  - destruct (str_eqb test_type (lit "invalid")) eqn:Einv; cbn.
    + eexists _, _; split; [reflexivity|]; cbn; split; [assumption|].
      intros _; right; cbn.
      apply str_eqb_eq in Einv; apply is_rejection_cases in Erej.
      split; [congruence|].
      destruct Erej as [-> | [-> | ->]]; auto.
    + destruct (Response.status_code response =? 404);
        (eexists _, _; split; [reflexivity|]; cbn; split; [assumption|]);
        [assumption | apply Hvac; assumption].
  - destruct (Response.status_code response =? 404);
      (eexists _, _; split; [reflexivity|]; cbn; split; [assumption|]);
      [assumption | apply Hvac; assumption].
Qed.

(* ================================================================== *)
(** * The dispatcher: the loop and the whole method *)
(* ================================================================== *)

Lemma loop_invariant env py city test_type start_time endpoints :
  forall fr,
    TestResult.passed (result fr) = false ->
    TestResult.test_type (result fr) = test_type ->
    exists fr',
      endpoint_loop env py city test_type start_time endpoints fr
      = (inr tt, fr') /\
      passes_rightly (result fr').
Proof.
  induction endpoints as [|endpoint rest IH]; intros fr Hp Hty.
  - exists fr; split; [reflexivity|].
    intros Ht; rewrite Hp in Ht; discriminate.
  - destruct (turn_invariant env py city test_type start_time endpoint fr
                Hp Hty) as (c & fr1 & Hturn & Hty1 & Hc).
    cbn [endpoint_loop]; unfold bind at 1; rewrite Hturn.
    destruct c; [exists fr1; split; [reflexivity | assumption]|].
    apply IH; assumption.
Qed.

Lemma finish_passes_rightly r : passes_rightly r -> passes_rightly (finish r).
Proof.
  unfold finish; destruct (TestResult.api_endpoint r); [trivial|].
  intros H; exact H.
Qed.

(** The method, cut at its gate: the two opening clock readings, the
    prober, then the mock synthesizer or the loop. *)
Lemma test_api_endpoint_gate env py self city test_type w :
  test_api_endpoint env py self city test_type w =
  match check_for_weather_endpoints env py self (started w) with
  | (inr true, w1) =>
      run_loop (endpoint_loop env py city test_type
                  (time_time env (clock_reads w))
                  (possible_endpoints self city))
               (initial_result (now_isoformat env (S (clock_reads w)))
                               city test_type) w1
  | (inr false, w1) =>
      create_mock_test_result env py self city test_type
        (time_time env (clock_reads w)) w1
  | (inl e, w1) => (inl e, w1)
  end.
Proof.
  unfold test_api_endpoint, bind, time, now, started; cbn.
  destruct (check_for_weather_endpoints env py self (tick (tick w)))
    as [[e|[|]] w1]; reflexivity.
Qed.

(** What the mock synthesizer returns. *)
Lemma create_mock_test_result_spec env py self city test_type start_time w :
  exists r,
    create_mock_test_result env py self city test_type start_time w
    = (inr r, tick (tick w)) /\
    TestResult.status_code r = Some 404 /\
    TestResult.api_endpoint r
    = Some (api_base_url self ++ lit "/weather?city=" ++ city) /\
    TestResult.passed r
    = str_eqb test_type (lit "invalid")
      && str_in (strip city) canonical_markers /\
    reported_valid (TestResult.validation_results r)
    = Some (TestResult.passed r) /\
    TestResult.response_time_ms r
    = NFloat (round2 py (elapsed_ms (time_time env (clock_reads w))
                                    start_time)).
Proof.
  unfold create_mock_test_result, bind, time, now, ret.
  destruct (str_eqb test_type (lit "invalid")
            && str_in (strip city) canonical_markers);
    [|destruct (str_eqb test_type (lit "valid")
                && str_in city (valid_cities self))];
    cbn; eexists; (split; [reflexivity|]); repeat split.
Qed.

(** The method always returns a result. *)
Lemma test_api_endpoint_returns env py self city test_type w :
  exists r w', test_api_endpoint env py self city test_type w = (inr r, w').
Proof.
  rewrite test_api_endpoint_gate.
  destruct (check_for_weather_endpoints_returns env py self (started w))
    as (b & w1 & ->).
  destruct b.
  - unfold run_loop.
    destruct (loop_invariant env py city test_type
                (time_time env (clock_reads w)) (possible_endpoints self city)
                (mkFrame w1 (initial_result
                               (now_isoformat env (S (clock_reads w)))
                               city test_type)) eq_refl eq_refl)
      as (fr' & -> & _).
    eexists _, _; reflexivity.
  - destruct (create_mock_test_result_spec env py self city test_type
                (time_time env (clock_reads w)) w1) as (r & -> & _).
    eexists _, _; reflexivity.
Qed.

(** C1: every result [test_api_endpoint] returns, from the loop or from
    the mock synthesizer, that has [passed] true either carries a
    validation report with [is_valid] true, or belongs to a test of type
    "invalid" whose recorded status is 400, 404 or 422; and the method
    does return a result. *)
Theorem passed_only_rightly (env : Env) (py : PyFloat)
    (self : WeatherAPITester) (city test_type : str) (w : World) :
  exists r w',
    test_api_endpoint env py self city test_type w = (inr r, w') /\
    (TestResult.passed r = true ->
     reported_valid (TestResult.validation_results r) = Some true \/
     (TestResult.test_type r = lit "invalid" /\
      (TestResult.status_code r = Some 400 \/
       TestResult.status_code r = Some 404 \/
       TestResult.status_code r = Some 422))).
Proof.
  rewrite test_api_endpoint_gate.
  destruct (check_for_weather_endpoints_returns env py self (started w))
    as (b & w1 & ->).
  destruct b.
  - unfold run_loop.
    destruct (loop_invariant env py city test_type
                (time_time env (clock_reads w)) (possible_endpoints self city)
                (mkFrame w1 (initial_result
                               (now_isoformat env (S (clock_reads w)))
                               city test_type)) eq_refl eq_refl)
      as (fr' & -> & Hinv).
    eexists _, _; split; [reflexivity|].
    apply finish_passes_rightly; assumption.
  - destruct (create_mock_test_result_spec env py self city test_type
                (time_time env (clock_reads w)) w1)
      as (r & -> & _ & _ & _ & Hv & _).
    exists r, (tick (tick w1)); split; [reflexivity|].
    intros Hpass; left; rewrite Hv, Hpass; reflexivity.
Qed.

Lemma passed_only_rightly_witness :
  exists r,
    fst (test_api_endpoint env_paris py0 tester (lit "Paris") (lit "valid") w0)
    = inr r /\
    TestResult.passed r = true /\
    (reported_valid (TestResult.validation_results r) = Some true \/
     (TestResult.test_type r = lit "invalid" /\
      (TestResult.status_code r = Some 400 \/
       TestResult.status_code r = Some 404 \/
       TestResult.status_code r = Some 422))).
Proof.
  destruct (passed_only_rightly env_paris py0 tester (lit "Paris")
              (lit "valid") w0) as (r & w' & E & H).
  exists r.
  assert (Hp : TestResult.passed r = true).
  { vm_compute in E; injection E as <- _; reflexivity. }
  split; [rewrite E; reflexivity|].
  split; [exact Hp | exact (H Hp)].
Defined.

(** C5: when the prober reports no weather API, the method returns the
    mock result without any further request; its status is 404, its
    endpoint is the query-string form on the city, and it has passed
    exactly when the test type is "invalid" and the trimmed city is one
    of the four markers; in every other combination it has not passed. *)
Theorem mock_result_policy (env : Env) (py : PyFloat)
    (self : WeatherAPITester) (city test_type : str) (w w1 : World) :
  check_for_weather_endpoints env py self (started w) = (inr false, w1) ->
  exists r w',
    test_api_endpoint env py self city test_type w = (inr r, w') /\
    requests w' = requests w1 /\
    TestResult.status_code r = Some 404 /\
    TestResult.api_endpoint r
    = Some (api_base_url self ++ lit "/weather?city=" ++ city) /\
    (TestResult.passed r = true <->
     test_type = lit "invalid" /\
     In (strip city) [lit ""; lit "   "; lit "XYZ123NotReal"; lit "123456"]) /\
    (~ (test_type = lit "invalid" /\
        In (strip city)
           [lit ""; lit "   "; lit "XYZ123NotReal"; lit "123456"]) ->
     TestResult.passed r = false).
Proof.
  intros Hprobe.
  rewrite test_api_endpoint_gate, Hprobe.
  destruct (create_mock_test_result_spec env py self city test_type
              (time_time env (clock_reads w)) w1)
    as (r & -> & Hs & He & Hp & _ & _).
  assert (Hiff : TestResult.passed r = true <->
                 test_type = lit "invalid" /\
                 In (strip city) canonical_markers).
  { rewrite Hp, andb_true_iff, str_eqb_eq, str_in_In; reflexivity. }
  exists r, (tick (tick w1)); repeat split; try assumption.
  - apply Hiff; assumption.
  - apply Hiff; assumption.
  - apply Hiff; assumption.
  - intros Hnot; destruct (TestResult.passed r) eqn:E; [|reflexivity].
    exfalso; apply Hnot, Hiff; reflexivity.
Qed.

(** Scenario A: no weather route at all, London under "valid". *)
Lemma mock_result_policy_witness :
  exists r w',
    test_api_endpoint env_refused py0 tester (lit "London") (lit "valid") w0
    = (inr r, w') /\
    TestResult.status_code r = Some 404 /\
    TestResult.api_endpoint r
    = Some (api_base_url tester ++ lit "/weather?city=" ++ lit "London") /\
    TestResult.passed r = false.
Proof.
  destruct (mock_result_policy env_refused py0 tester (lit "London")
              (lit "valid") w0
              (mkWorld [(lit "http://localhost:5000/api/health", 5);
                        (lit "http://localhost:5000/api/info", 5);
                        (lit "http://localhost:5000/weather?city=test", 5);
                        (lit "http://localhost:5000/api/weather/test", 5)] 2)
              eq_refl)
    as (r & w' & E & _ & Hs & He & _ & Hn).
  exists r, w'; repeat split; try assumption.
  apply Hn; intros [Hty _]; vm_compute in Hty; discriminate.
Defined.

(** C4: under the test type "invalid", when the prober reports an API
    and the first candidate (which, under this type, always settles the
    result) answers 400, 404 or 422, the result has passed, its errors
    hold the confirmation message, and that request is the only one made
    to a candidate. *)
Theorem invalid_rejection_passes (env : Env) (py : PyFloat)
    (self : WeatherAPITester) (city : str) (w w1 : World)
    (response : Response.t) :
  check_for_weather_endpoints env py self (started w) = (inr true, w1) ->
  answer env w1 0 (candidate self city 0) 10 = inr response ->
  Response.status_code response = 400 \/
  Response.status_code response = 404 \/
  Response.status_code response = 422 ->
  exists r w',
    test_api_endpoint env py self city (lit "invalid") w = (inr r, w') /\
    TestResult.passed r = true /\
    TestResult.errors r
    = [lit "Correctly returned error "
           ++ str_of_Z (Response.status_code response)
           ++ lit " for invalid input"] /\
    TestResult.api_endpoint r = Some (candidate self city 0) /\
    TestResult.status_code r = Some (Response.status_code response) /\
    requests w' = requests w1 ++ [(candidate self city 0, 10)].
Proof.
  intros Hprobe Hanswer Hstatus.
  apply is_rejection_cases in Hstatus.
  rewrite test_api_endpoint_gate, Hprobe.
  unfold candidate, possible_endpoints in *; cbn [nth] in *.
  unfold run_loop; cbn [endpoint_loop]; unfold bind at 1.
  rewrite (turn_rejection env py city (time_time env (clock_reads w)) _
             (mkFrame w1 (initial_result
                            (now_isoformat env (S (clock_reads w)))
                            city (lit "invalid")))
             response Hanswer Hstatus).
  eexists _, _; split; [reflexivity|].
  repeat split.
Qed.

(** Scenario C: the empty city under "invalid" against a target that
    answers 404. *)
Lemma invalid_rejection_passes_witness :
  exists r w',
    test_api_endpoint env_all_404 py0 tester (lit "") (lit "invalid") w0
    = (inr r, w') /\
    TestResult.passed r = true /\
    TestResult.errors r
    = [lit "Correctly returned error 404 for invalid input"] /\
    List.length (requests w') = 4%nat.
Proof.
  destruct (invalid_rejection_passes env_all_404 py0 tester (lit "") w0
              (mkWorld [(lit "http://localhost:5000/api/health", 5);
                        (lit "http://localhost:5000/api/info", 5);
                        (lit "http://localhost:5000/weather?city=test", 5)] 2)
              not_found eq_refl eq_refl (or_intror (or_introl eq_refl)))
    as (r & w' & E & Hp & He & _ & _ & Hw).
  exists r, w'; repeat split; try assumption.
  rewrite Hw; reflexivity.
Defined.

(* ================================================================== *)
(** * Faults *)
(* ================================================================== *)

Lemma answer_continue env w endpoint k url timeout :
  answer env (tick (sent w endpoint 10)) k url timeout
  = answer env w (S k) url timeout.
Proof. exact (answer_sent env w endpoint 10 k url timeout). Qed.

(** The loop on a list whose first [k] endpoints answer 404 under a test
    type other than "invalid" and whose next request raises [e]. *)
Lemma loop_fault env py city test_type start_time endpoints :
  forall (k : nat) (fr : Frame) (e : exn),
    TestResult.passed (result fr) = false ->
    (k < List.length endpoints)%nat ->
    (forall i, (i < k)%nat ->
       exists response,
         answer env (world fr) i (nth i endpoints []) 10 = inr response /\
         Response.status_code response = 404 /\
         test_type <> lit "invalid") ->
    answer env (world fr) k (nth k endpoints []) 10 = inl e ->
    exists fr',
      endpoint_loop env py city test_type start_time endpoints fr
      = (inr tt, fr') /\
      TestResult.status_code (result fr') = Some (fault_status e) /\
      TestResult.passed (result fr') = false /\
      In (fault_message e) (TestResult.errors (result fr')).
Proof.
  induction endpoints as [|endpoint rest IH]; intros k fr e Hp Hk Hpre Hk_fault.
  - cbn in Hk; lia.
  - cbn [endpoint_loop]; unfold bind at 1.
    destruct k as [|k].
    + cbn [nth] in Hk_fault.
      rewrite (turn_fault env py city test_type start_time endpoint fr e
                 Hk_fault).
      eexists; split; [reflexivity|]; cbn.
      repeat split; [assumption|].
      apply in_or_app; right; left; reflexivity.
    + destruct (Hpre 0%nat ltac:(lia)) as (response & H0 & H404 & Hty).
      cbn [nth] in H0.
      rewrite (turn_continue env py city test_type start_time endpoint fr
                 response H0 H404 Hty).
      apply (IH k).
      * exact Hp.
      * cbn in Hk; lia.
      * intros i Hi; cbn [world].
        destruct (Hpre (S i) ltac:(lia)) as (r & Hr & Hr404 & _).
        exists r; rewrite answer_continue; auto.
      * cbn [world]; rewrite answer_continue; exact Hk_fault.
Qed.

(** C3 as stated fails on a target that refuses every connection: each
    of the four requests raises a connection error, and the result, for
    the empty city under "invalid", has status 404 and has passed. *)
Lemma refused_connection_not_recorded :
  test_api_endpoint env_refused py0 tester (lit "") (lit "invalid") w0
  = (inr (TestResult.mk (lit "2024-01-01T00:00:00") (lit "") (lit "invalid")
            true (Some (lit "http://localhost:5000/weather?city="))
            (Some 404) (NFloat (elapsed_ms float_12 (S754_zero false))) None
            [lit "No weather API endpoints found - this is expected for invalid inputs"]
            (MockReport true [] (lit "No API to validate"))),
     mkWorld [(lit "http://localhost:5000/api/health", 5);
              (lit "http://localhost:5000/api/info", 5);
              (lit "http://localhost:5000/weather?city=test", 5);
              (lit "http://localhost:5000/api/weather/test", 5)] 4) /\
  (forall n url timeout,
     session_get env_refused n url timeout
     = inl (ConnectionError (lit "Connection refused"))).
Proof. split; [vm_compute; reflexivity | reflexivity]. Qed.

(* ================================================================== *)
(** * When every candidate answers 404 *)
(* ================================================================== *)

(** The loop on endpoints that all answer 404 under a test type other
    than "invalid": every turn overwrites [api_endpoint], so after a
    non-empty list it holds the last endpoint; [errors] and [passed] are
    as they were. *)
Lemma loop_all_continue env py city test_type start_time endpoints :
  forall fr : Frame,
    test_type <> lit "invalid" ->
    (forall i, (i < List.length endpoints)%nat ->
       exists response,
         answer env (world fr) i (nth i endpoints []) 10 = inr response /\
         Response.status_code response = 404) ->
    exists fr',
      endpoint_loop env py city test_type start_time endpoints fr
      = (inr tt, fr') /\
      TestResult.errors (result fr') = TestResult.errors (result fr) /\
      TestResult.passed (result fr') = TestResult.passed (result fr) /\
      TestResult.api_endpoint (result fr')
      = match endpoints with
        | [] => TestResult.api_endpoint (result fr)
        | _ :: _ => Some (last endpoints [])
        end /\
      requests (world fr')
      = requests (world fr) ++ map (fun e => (e, 10)) endpoints.
Proof.
  induction endpoints as [|endpoint rest IH]; intros fr Hty Hall.
  - exists fr; repeat split; cbn; rewrite app_nil_r; reflexivity.
  - cbn [endpoint_loop]; unfold bind at 1.
    destruct (Hall 0%nat ltac:(cbn; lia)) as (response & H0 & H404).
    cbn [nth] in H0.
    rewrite (turn_continue env py city test_type start_time endpoint fr
               response H0 H404 Hty).
    destruct (IH (mkFrame (tick (sent (world fr) endpoint 10))
                    (TestResult.update endpoint 404
                       (NFloat (round2 py
                          (elapsed_ms (time_time env (clock_reads (world fr)))
                                      start_time)))
                       (result fr))) Hty) as (fr' & -> & He & Hp & Ha & Hw).
    { intros i Hi; cbn [world]; rewrite answer_continue.
      apply (Hall (S i)); cbn; lia. }
    exists fr'; split; [reflexivity|].
    cbn in He, Hp, Ha, Hw.
    repeat split; try assumption.
    + rewrite Ha; destruct rest; reflexivity.
    + rewrite Hw; cbn; rewrite <- app_assoc; reflexivity.
Qed.

(** The method against a target whose four candidates all answer 404,
    under a test type other than "invalid": the result names the fourth
    candidate as its endpoint and its [errors] are empty. *)
Lemma all_404_result env py self city test_type w w1 :
  check_for_weather_endpoints env py self (started w) = (inr true, w1) ->
  test_type <> lit "invalid" ->
  (forall i, (i < 4)%nat ->
     exists response,
       answer env w1 i (candidate self city i) 10 = inr response /\
       Response.status_code response = 404) ->
  exists r w',
    test_api_endpoint env py self city test_type w = (inr r, w') /\
    TestResult.api_endpoint r = Some (candidate self city 3) /\
    TestResult.errors r = [] /\
    TestResult.passed r = false.
Proof.
  intros Hprobe Hty Hall.
  rewrite test_api_endpoint_gate, Hprobe; unfold run_loop.
  destruct (loop_all_continue env py city test_type
              (time_time env (clock_reads w)) (possible_endpoints self city)
              (mkFrame w1 (initial_result
                             (now_isoformat env (S (clock_reads w)))
                             city test_type)) Hty Hall)
    as (fr' & -> & He & Hp & Ha & _).
  eexists _, _; split; [reflexivity|].
  unfold finish; rewrite Ha; cbn in *.
  repeat split; assumption.
Qed.

(** C2 at London under "valid" against a target that answers every
    request with 404: the prober reports an API (its third probe is
    answered 404), all four candidates are tried and answer 404, and the
    result names the last candidate as [api_endpoint] and has no error at
    all: "No valid API endpoint found" is not appended. *)
Theorem all_404_names_last_candidate :
  test_api_endpoint env_all_404 py0 tester (lit "London") (lit "valid") w0
  = (inr (TestResult.mk (lit "2024-01-01T00:00:00") (lit "London")
            (lit "valid") false
            (Some (lit "http://localhost:5000/weather/London"))
            (Some 404) (NFloat (elapsed_ms float_12 (S754_zero false))) None
            [] NoValidation),
     mkWorld [(lit "http://localhost:5000/api/health", 5);
              (lit "http://localhost:5000/api/info", 5);
              (lit "http://localhost:5000/weather?city=test", 5);
              (lit "http://localhost:5000/api/weather/London", 10);
              (lit "http://localhost:5000/weather?city=London", 10);
              (lit "http://localhost:5000/api/weather?city=London", 10);
              (lit "http://localhost:5000/weather/London", 10)] 6).
Proof. vm_compute; reflexivity. Qed.

(* ================================================================== *)
(** * The response time of a fault *)
(* ================================================================== *)

(** When the request to the first candidate raises, [response_time_ms]
    is still the [0] the dictionary started with, whatever the clock. *)
Lemma first_fault_time_is_zero env py self city test_type w w1 e :
  check_for_weather_endpoints env py self (started w) = (inr true, w1) ->
  answer env w1 0 (candidate self city 0) 10 = inl e ->
  exists r w',
    test_api_endpoint env py self city test_type w = (inr r, w') /\
    TestResult.response_time_ms r = NInt 0 /\
    clock_reads w' = clock_reads w1.
Proof.
  intros Hprobe Hfault.
  rewrite test_api_endpoint_gate, Hprobe.
  unfold candidate, possible_endpoints in *; cbn [nth] in *.
  unfold run_loop; cbn [endpoint_loop]; unfold bind at 1.
  rewrite (turn_fault env py city test_type (time_time env (clock_reads w)) _
             (mkFrame w1 (initial_result
                            (now_isoformat env (S (clock_reads w)))
                            city test_type)) e Hfault).
  eexists _, _; split; [reflexivity|].
  split; reflexivity.
Qed.

(** C9 at London under "valid" against a target that answers the probes
    and then times out: the clock reads 0.0 at the start and 12.0 ever
    after, yet the result finalized by the timeout branch has
    [response_time_ms] 0, the initial [int]; the branch never reads the
    clock (two readings in all: the start time and the timestamp). *)
Theorem timeout_leaves_response_time_zero :
  test_api_endpoint env_timeout py0 tester (lit "London") (lit "valid") w0
  = (inr (TestResult.mk (lit "2024-01-01T00:00:00") (lit "London")
            (lit "valid") false None (Some 408) (NInt 0) None
            [lit "Request timeout (>10 seconds)";
             lit "No valid API endpoint found"]
            NoValidation),
     mkWorld [(lit "http://localhost:5000/api/health", 5);
              (lit "http://localhost:5000/api/info", 5);
              (lit "http://localhost:5000/weather?city=test", 5);
              (lit "http://localhost:5000/api/weather/London", 10)] 2).
Proof. vm_compute; reflexivity. Qed.

(* ================================================================== *)
(** * More on the payload validator *)
(* ================================================================== *)

Lemma dict_has_get (key : str) (items : list (str * JSON)) :
  dict_has key items
  = match dict_get key items with Some _ => true | None => false end.
Proof.
  induction items as [|[k v] rest IH]; simpl; [reflexivity|].
  destruct (str_eqb key k); simpl; [reflexivity | exact IH].
Qed.

(** A report is consistent when it is valid exactly if it has no
    error. *)
Lemma consistent_add_error e v :
  Validation.is_valid (add_error e v) = true <->
  Validation.errors (add_error e v) = [].
Proof.
  simpl; split; [discriminate|].
  intros H; apply app_eq_nil in H; destruct H as [_ H]; discriminate.
Qed.

Lemma check_temperature_consistent py items v :
  (Validation.is_valid v = true <-> Validation.errors v = []) ->
  Validation.is_valid (check_temperature py items v) = true <->
  Validation.errors (check_temperature py items v) = [].
Proof.
  intros H; unfold check_temperature.
  destruct (dict_get _ items) as [temp|]; [|exact H].
  destruct (negb (is_int_or_float temp)); [apply consistent_add_error|].
  destruct (is_extreme temp); exact H.
Qed.

Lemma check_description_consistent items v :
  (Validation.is_valid v = true <-> Validation.errors v = []) ->
  Validation.is_valid (check_description items v) = true <->
  Validation.errors (check_description items v) = [].
Proof.
  intros H; unfold check_description.
  destruct (dict_get _ items) as [desc|]; [|exact H].
  destruct (empty_or_not_str desc); [apply consistent_add_error | exact H].
Qed.

Lemma check_city_consistent items v :
  (Validation.is_valid v = true <-> Validation.errors v = []) ->
  Validation.is_valid (check_city items v) = true <->
  Validation.errors (check_city items v) = [].
Proof.
  intros H; unfold check_city.
  destruct (dict_get _ items) as [c|]; [|exact H].
  destruct (empty_or_not_str c); [apply consistent_add_error | exact H].
Qed.

Lemma report_consistent py data city test_type :
  Validation.is_valid (validate_weather_response py data city test_type) = true
  <-> Validation.errors (validate_weather_response py data city test_type) = [].
Proof.
  unfold validate_weather_response; destruct data;
    try (apply consistent_add_error).
  apply check_city_consistent, check_description_consistent,
        check_temperature_consistent.
  unfold check_missing; destruct (missing_fields items);
    [simpl; tauto | apply consistent_add_error].
Qed.

(** X1: the report of the validator is valid exactly when it carries no
    error, and invalid exactly when it carries at least one, whatever the
    payload. *)
Theorem valid_iff_no_error (py : PyFloat) (data : JSON) (city test_type : str) :
  let v := validate_weather_response py data city test_type in
  (Validation.is_valid v = true <-> Validation.errors v = []) /\
  (Validation.is_valid v = false <-> Validation.errors v <> []).
Proof.
  intros v; subst v.
  pose proof (report_consistent py data city test_type) as H.
  split; [exact H|].
  destruct (Validation.is_valid _); split.
  - discriminate.
  - intros Hne; exfalso; apply Hne, H; reflexivity.
  - intros _ He; apply H in He; discriminate.
  - reflexivity.
Qed.

(** The verdict of each check, as a boolean. *)
Lemma is_valid_check_temperature py items v :
  Validation.is_valid (check_temperature py items v)
  = Validation.is_valid v
    && match dict_get (lit "temperature") items with
       | Some temp => is_int_or_float temp
       | None => true
       end.
Proof.
  unfold check_temperature.
  destruct (dict_get _ items) as [temp|]; [|rewrite andb_true_r; reflexivity].
  destruct (is_int_or_float temp); simpl.
  - rewrite andb_true_r; destruct (is_extreme temp); reflexivity.
  - rewrite andb_false_r; reflexivity.
Qed.

Lemma is_valid_check_description items v :
  Validation.is_valid (check_description items v)
  = Validation.is_valid v
    && match dict_get (lit "description") items with
       | Some desc => negb (empty_or_not_str desc)
       | None => true
       end.
Proof.
  unfold check_description.
  destruct (dict_get _ items) as [desc|]; [|rewrite andb_true_r; reflexivity].
  destruct (empty_or_not_str desc); simpl;
    [rewrite andb_false_r | rewrite andb_true_r]; reflexivity.
Qed.

Lemma is_valid_check_city items v :
  Validation.is_valid (check_city items v)
  = Validation.is_valid v
    && match dict_get (lit "city") items with
       | Some c => negb (empty_or_not_str c)
       | None => true
       end.
Proof.
  unfold check_city.
  destruct (dict_get _ items) as [c|]; [|rewrite andb_true_r; reflexivity].
  destruct (empty_or_not_str c); simpl;
    [rewrite andb_false_r | rewrite andb_true_r]; reflexivity.
Qed.

Lemma is_valid_check_missing items v :
  Validation.is_valid (check_missing items v)
  = Validation.is_valid v
    && (dict_has (lit "city") items && dict_has (lit "temperature") items
        && dict_has (lit "description") items).
Proof.
  unfold check_missing, missing_fields, required_fields; simpl.
  destruct (dict_has (lit "city") items),
           (dict_has (lit "temperature") items),
           (dict_has (lit "description") items); simpl;
    rewrite ?andb_true_r, ?andb_false_r; reflexivity.
Qed.

Lemma non_blank_str (j : JSON) :
  negb (empty_or_not_str j) = true <->
  exists s, j = JStr s /\ strip s <> [].
Proof.
  destruct j; simpl; try (split; [discriminate | intros (x & E & _); discriminate]).
  split.
  - intros H; exists s; split; [reflexivity|].
    intros E; rewrite E in H; discriminate.
  - intros (x & E & Hx); injection E as <-.
    destruct (strip s); [contradiction | reflexivity].
Qed.

(** X2: a payload is reported valid exactly when it is an object whose
    [city] and [description] are strings that are not blank and whose
    [temperature] is an [int], a [float] or a [bool]. *)
Theorem valid_payload_shape (py : PyFloat) (data : JSON)
    (city test_type : str) :
  Validation.is_valid (validate_weather_response py data city test_type) = true
  <->
  exists items c temp d,
    data = JDict items /\
    dict_get (lit "city") items = Some (JStr c) /\ strip c <> [] /\
    dict_get (lit "temperature") items = Some temp /\
    is_int_or_float temp = true /\
    dict_get (lit "description") items = Some (JStr d) /\ strip d <> [].
Proof.
  unfold validate_weather_response.
  destruct data;
    try (split; [discriminate | intros (i & c & t & d & E & _); discriminate]).
  rewrite is_valid_check_city, is_valid_check_description,
          is_valid_check_temperature, is_valid_check_missing.
  rewrite !dict_has_get; cbn [Validation.is_valid andb].
  split.
  - intros H.
    destruct (dict_get (lit "city") items) as [jc|] eqn:Ec; [|discriminate].
    destruct (dict_get (lit "temperature") items) as [temp|] eqn:Et;
      [|discriminate].
    destruct (dict_get (lit "description") items) as [jd|] eqn:Ed;
      [|discriminate].
    cbn [andb] in H.
    apply andb_true_iff in H; destruct H as [H Hc].
    apply andb_true_iff in H; destruct H as [Ht Hd].
    apply non_blank_str in Hc; destruct Hc as (c & -> & Hc).
    apply non_blank_str in Hd; destruct Hd as (d & -> & Hd).
    exists items, c, temp, d; repeat split; assumption || reflexivity.
  - intros (i & c & temp & d & E & Hc & Hc' & Ht & Ht' & Hd & Hd').
    injection E as <-.
    rewrite Hc, Ht, Hd, Ht'; cbn [andb].
    apply andb_true_iff; split; apply non_blank_str; eauto.
Qed.

(** The warnings of a report are those of the temperature check. *)
Lemma warnings_of_report py items city test_type :
  Validation.warnings
    (validate_weather_response py (JDict items) city test_type)
  = match dict_get (lit "temperature") items with
    | Some temp =>
        if is_int_or_float temp && is_extreme temp
        then [extreme_warning py temp] else []
    | None => []
    end.
Proof.
  unfold validate_weather_response.
  assert (Hc : forall v, Validation.warnings (check_city items v)
                         = Validation.warnings v).
  { intros v; unfold check_city; destruct (dict_get _ items) as [c|];
      [destruct (empty_or_not_str c)|]; reflexivity. }
  assert (Hd : forall v, Validation.warnings (check_description items v)
                         = Validation.warnings v).
  { intros v; unfold check_description; destruct (dict_get _ items) as [c|];
      [destruct (empty_or_not_str c)|]; reflexivity. }
  assert (Hm : forall v, Validation.warnings (check_missing items v)
                         = Validation.warnings v).
  { intros v; unfold check_missing; destruct (missing_fields items);
      reflexivity. }
  rewrite Hc, Hd; unfold check_temperature.
  destruct (dict_get (lit "temperature") items) as [temp|]; [|apply Hm].
  destruct (is_int_or_float temp); simpl; [|apply Hm].
  destruct (is_extreme temp); simpl; rewrite Hm; reflexivity.
Qed.

(** X3: a report carries at most one warning, and it carries one exactly
    when the payload is an object whose [temperature] is an [int] below
    -100 or above 70, or a [float] that compares below -100 or above 70;
    the bounds themselves and a [bool] raise no warning. *)
Theorem warning_only_for_extreme_number (py : PyFloat) (data : JSON)
    (city test_type : str) :
  let v := validate_weather_response py data city test_type in
  (List.length (Validation.warnings v) <= 1)%nat /\
  (Validation.warnings v <> [] <->
   exists items temp,
     data = JDict items /\
     dict_get (lit "temperature") items = Some temp /\
     ((exists z, temp = JInt z /\ (z < -100 \/ 70 < z)) \/
      (exists f, temp = JFloat f /\
                 (SFltb f float_m100 = true \/ SFltb float_70 f = true)))).
Proof.
  intros v; subst v.
  destruct data;
    try (split; [simpl; lia|];
         split; [intros H; exfalso; apply H; reflexivity
                | intros (i & t & E & _); discriminate]).
  rewrite warnings_of_report.
  destruct (dict_get (lit "temperature") items) as [temp|] eqn:Etemp.
  2:{ split; [simpl; lia|]; split; [intros H; exfalso; apply H; reflexivity|].
      intros (i & t & E & Hget & _); injection E as <-; congruence. }
  split; [destruct (is_int_or_float temp && is_extreme temp); simpl; lia|].
  split.
  - intros H; exists items, temp; split; [reflexivity|]; split; [exact Etemp|].
    clear Etemp.
    destruct temp; simpl in H; try (exfalso; apply H; reflexivity).
    + destruct b; simpl in H; exfalso; apply H; reflexivity.
    + left; exists z; split; [reflexivity|].
      destruct (z <? -100) eqn:E1; [apply Z.ltb_lt in E1; auto|].
      destruct (70 <? z) eqn:E2; [apply Z.ltb_lt in E2; auto|].
      exfalso; apply H; reflexivity.
    + right; exists f; split; [reflexivity|].
      destruct (SFltb f float_m100); [auto|].
      destruct (SFltb float_70 f); [auto|].
      exfalso; apply H; reflexivity.
  - intros (i & t & E & Hget & Hcase).
    injection E as <-; rewrite Etemp in Hget; injection Hget as <-.
    destruct Hcase as [(z & -> & Hz) | (f & -> & Hf)]; simpl.
    + assert (((z <? -100) || (70 <? z)) = true) as ->.
      { apply orb_true_iff; rewrite !Z.ltb_lt; exact Hz. }
      discriminate.
    + assert ((SFltb f float_m100 || SFltb float_70 f) = true) as ->.
      { apply orb_true_iff; exact Hf. }
      discriminate.
Qed.

Lemma valid_payload_shape_witness :
  Validation.is_valid
    (validate_weather_response py0 scenario_B (lit "Paris") (lit "valid"))
  = true.
Proof.
  apply (proj2 (valid_payload_shape py0 scenario_B (lit "Paris") (lit "valid"))).
  exists [(lit "city", JStr (lit "Paris"));
          (lit "temperature", JFloat float_18_5);
          (lit "description", JStr (lit "Clear"))],
         (lit "Paris"), (JFloat float_18_5), (lit "Clear").
  repeat split; discriminate.
Defined.

Lemma warning_only_for_extreme_number_witness :
  Validation.warnings
    (validate_weather_response py0 scenario_E (lit "Oslo") (lit "valid"))
  <> [] /\
  Validation.is_valid
    (validate_weather_response py0 scenario_E (lit "Oslo") (lit "valid"))
  = true.
Proof.
  split; [|reflexivity].
  apply (proj2 (proj2 (warning_only_for_extreme_number py0 scenario_E
                         (lit "Oslo") (lit "valid")))).
  exists [(lit "city", JStr (lit "Oslo"));
          (lit "temperature", JInt (-150));
          (lit "description", JStr (lit "Freezing"))], (JInt (-150)).
  split; [reflexivity|]; split; [reflexivity|].
  left; exists (-150); split; [reflexivity | left; lia].
Defined.

(* ================================================================== *)
(** * More on the constructor and the prober *)
(* ================================================================== *)

Lemma lstrip_char_spec (c : N) (s : str) :
  exists n, s = repeat c n ++ lstrip_char c s /\
            forall t, lstrip_char c s <> c :: t.
Proof.
  induction s as [|x s IH]; simpl.
  - exists 0%nat; split; [reflexivity | discriminate].
  - destruct (N.eqb x c) eqn:E.
    + apply N.eqb_eq in E; subst x.
      destruct IH as (n & Hs & Hn).
      exists (S n); split; [simpl; f_equal; exact Hs | exact Hn].
    + exists 0%nat; split; [reflexivity|].
      intros t H; injection H as H _; subst x.
      rewrite N.eqb_refl in E; discriminate.
Qed.

Lemma rev_repeat (c : N) (n : nat) : rev (repeat c n) = repeat c n.
Proof.
  induction n as [|n IH]; simpl; [reflexivity|].
  rewrite IH; clear IH.
  induction n as [|n IH]; simpl; [reflexivity | f_equal; exact IH].
Qed.

(** X4: the constructor keeps the base URL up to its trailing slashes:
    the URL given is the stored one followed by slashes only, and the
    stored one does not end with a slash. *)
Theorem init_strips_trailing_slashes (base_url : str) :
  (exists n, base_url = api_base_url (init base_url) ++ repeat 47%N n) /\
  (forall s, api_base_url (init base_url) <> s ++ [47%N]).
Proof.
  unfold init, rstrip_char; cbn [api_base_url].
  destruct (lstrip_char_spec 47%N (rev base_url)) as (n & Hs & Hn).
  split.
  - exists n.
    apply (f_equal (@rev N)) in Hs.
    rewrite rev_involutive, rev_app_distr, rev_repeat in Hs; exact Hs.
  - intros s H.
    apply (f_equal (@rev N)) in H.
    rewrite rev_involutive, rev_app_distr in H; simpl in H.
    exact (Hn _ H).
Qed.

(** The prober, run: its verdict is the disjunction of the four
    confirmations, and it logs as many probes as it took to confirm. *)
Lemma check_for_weather_endpoints_run env py self w :
  check_for_weather_endpoints env py self w
  = (inr (confirms_described py
            (answer env w 0 (api_base_url self ++ lit "/api/health") 5)
          || confirms_described py
               (answer env w 1 (api_base_url self ++ lit "/api/info") 5)
          || confirms_direct
               (answer env w 2 (api_base_url self ++ lit "/weather?city=test") 5)
          || confirms_direct
               (answer env w 3 (api_base_url self ++ lit "/api/weather/test") 5)),
     mkWorld
       (requests w
        ++ with_timeout 5
             (firstn
                (probes_sent
                   (confirms_described py
                      (answer env w 0 (api_base_url self ++ lit "/api/health") 5))
                   (confirms_described py
                      (answer env w 1 (api_base_url self ++ lit "/api/info") 5))
                   (confirms_direct
                      (answer env w 2
                         (api_base_url self ++ lit "/weather?city=test") 5)))
                (test_endpoints self)))
       (clock_reads w)).
Proof.
  unfold check_for_weather_endpoints, test_endpoints, probes_sent,
    with_timeout; simpl.
  unfold bind at 1 2.
  rewrite probe_described_turn.
  destruct (confirms_described py (answer env w 0 _ 5)); [reflexivity|].
  unfold bind at 1.
  rewrite probe_described_turn, answer_sent.
  destruct (confirms_described py (answer env w 1 _ 5)); simpl.
  { unfold ret, sent; simpl; rewrite <- app_assoc; reflexivity. }
  unfold ret at 1.
  unfold bind at 1.
  rewrite probe_direct_turn, !answer_sent.
  destruct (confirms_direct (answer env w 2 _ 5)); simpl.
  { unfold ret, sent; simpl; rewrite <- !app_assoc; reflexivity. }
  unfold bind at 1.
  rewrite probe_direct_turn, !answer_sent.
  unfold sent; simpl; rewrite <- !app_assoc.
  destruct (confirms_direct (answer env w 3 _ 5)); reflexivity.
Qed.

(** X5: the prober answers true exactly when one of its probes
    confirms: the first or second self-describing endpoint, as first or
    second request, answers 200 with a JSON body mentioning "weather" and
    "endpoint", or the first or second direct guess, as third or fourth
    request, answers 200, 400 or 404. *)
Theorem probe_verdict (env : Env) (py : PyFloat) (self : WeatherAPITester)
    (w : World) :
  exists w',
    check_for_weather_endpoints env py self w
    = (inr (confirms_described py
              (answer env w 0 (api_base_url self ++ lit "/api/health") 5)
            || confirms_described py
                 (answer env w 1 (api_base_url self ++ lit "/api/info") 5)
            || confirms_direct
                 (answer env w 2
                    (api_base_url self ++ lit "/weather?city=test") 5)
            || confirms_direct
                 (answer env w 3
                    (api_base_url self ++ lit "/api/weather/test") 5)),
       w').
Proof. eexists; apply check_for_weather_endpoints_run. Qed.

(** X6: the prober sends between one and four requests, to its
    endpoints in their fixed order and each with timeout 5, stops before
    the fourth only on a confirmation, and never reads the clock. *)
Theorem probe_requests (env : Env) (py : PyFloat) (self : WeatherAPITester)
    (w : World) :
  exists b n w',
    check_for_weather_endpoints env py self w = (inr b, w') /\
    (1 <= n <= 4)%nat /\
    requests w' = requests w ++ with_timeout 5 (firstn n (test_endpoints self)) /\
    clock_reads w' = clock_reads w /\
    ((n < 4)%nat -> b = true).
Proof.
  rewrite check_for_weather_endpoints_run.
  eexists _, _, _; split; [reflexivity|].
  cbn [requests clock_reads].
  split; [|split; [reflexivity|split; [reflexivity|]]].
  - unfold probes_sent.
    destruct (confirms_described py (answer env w 0 _ 5)); [lia|].
    destruct (confirms_described py (answer env w 1 _ 5)); [lia|].
    destruct (confirms_direct (answer env w 2 _ 5)); lia.
  - unfold probes_sent.
    destruct (confirms_described py (answer env w 0 _ 5)); [reflexivity|].
    destruct (confirms_described py (answer env w 1 _ 5)); [reflexivity|].
    destruct (confirms_direct (answer env w 2 _ 5)); [reflexivity|].
    intros H; lia.
Qed.

(* ================================================================== *)
(** * More on one turn of the loop *)
(* ================================================================== *)

(** A 200 whose body is JSON: the turn stores the payload and the
    validator's report, takes [passed] and [errors] from the report, and
    breaks. *)
Lemma turn_payload env py city test_type start_time endpoint fr response data :
  answer env (world fr) 0 endpoint 10 = inr response ->
  Response.status_code response = 200 ->
  Response.json response = inr data ->
  try_except (attempt env py city test_type start_time endpoint) on_fault fr
  = (inr Break,
     mkFrame (tick (sent (world fr) endpoint 10))
       (TestResult.set_errors
          (Validation.errors
             (validate_weather_response py data city test_type))
          (TestResult.set_passed
             (Validation.is_valid
                (validate_weather_response py data city test_type))
             (TestResult.set_validation_results
                (Report (validate_weather_response py data city test_type))
                (TestResult.set_response_data data
                   (TestResult.update endpoint 200
                      (NFloat (round2 py
                         (elapsed_ms (time_time env (clock_reads (world fr)))
                                     start_time)))
                      (result fr))))))).
Proof.
  unfold answer; rewrite Nat.add_0_r; intros H H200 Hjson.
  run_turn; rewrite H; cbn; rewrite H200, Hjson; reflexivity.
Qed.

(** A 200 whose body does not decode: one error, and the turn breaks. *)
Lemma turn_undecodable env py city test_type start_time endpoint fr
    response msg :
  answer env (world fr) 0 endpoint 10 = inr response ->
  Response.status_code response = 200 ->
  Response.json response = inl (JSONDecodeError msg) ->
  try_except (attempt env py city test_type start_time endpoint) on_fault fr
  = (inr Break,
     mkFrame (tick (sent (world fr) endpoint 10))
       (TestResult.append_error (lit "Response is not valid JSON")
          (TestResult.update endpoint 200
             (NFloat (round2 py
                (elapsed_ms (time_time env (clock_reads (world fr)))
                            start_time)))
             (result fr)))).
Proof.
  unfold answer; rewrite Nat.add_0_r; intros H H200 Hjson.
  run_turn; rewrite H; cbn; rewrite H200, Hjson; reflexivity.
Qed.

(** Any status that is not 200, not a rejection of an "invalid" input
    and not 404: one error with the status and the first hundred
    characters of the body, and the turn breaks. *)
Lemma turn_other_status env py city test_type start_time endpoint fr response :
  answer env (world fr) 0 endpoint 10 = inr response ->
  Response.status_code response <> 200 ->
  Response.status_code response <> 404 ->
  is_rejection (Response.status_code response)
  && str_eqb test_type (lit "invalid") = false ->
  try_except (attempt env py city test_type start_time endpoint) on_fault fr
  = (inr Break,
     mkFrame (tick (sent (world fr) endpoint 10))
       (TestResult.append_error
          (lit "HTTP " ++ str_of_Z (Response.status_code response)
               ++ lit ": " ++ firstn 100 (Response.text response))
          (TestResult.update endpoint (Response.status_code response)
             (NFloat (round2 py
                (elapsed_ms (time_time env (clock_reads (world fr)))
                            start_time)))
             (result fr)))).
Proof.
  unfold answer; rewrite Nat.add_0_r; intros H H200 H404 Hrej.
  run_turn; rewrite H; cbn.
  apply Z.eqb_neq in H200, H404; rewrite H200, Hrej, H404; reflexivity.
Qed.

(** What every turn does, whatever the answer: it never raises, logs
    exactly one request, reads the clock at most once, leaves a status,
    keeps the timestamp, city and test type, and either names its
    endpoint or, the request having raised, records the fault and
    breaks. *)
Lemma turn_shape env py city test_type start_time endpoint fr :
  exists c fr',
    try_except (attempt env py city test_type start_time endpoint) on_fault fr
    = (inr c, fr') /\
    requests (world fr') = requests (world fr) ++ [(endpoint, 10)] /\
    (clock_reads (world fr') <= S (clock_reads (world fr)))%nat /\
    (exists status, TestResult.status_code (result fr') = Some status) /\
    TestResult.timestamp (result fr') = TestResult.timestamp (result fr) /\
    TestResult.city (result fr') = TestResult.city (result fr) /\
    TestResult.test_type (result fr') = TestResult.test_type (result fr) /\
    (TestResult.api_endpoint (result fr') = Some endpoint \/
     exists e,
       answer env (world fr) 0 endpoint 10 = inl e /\
       c = Break /\
       result fr'
       = TestResult.set_status_code (fault_status e)
           (TestResult.append_error (fault_message e) (result fr))).
Proof.
  unfold answer; rewrite Nat.add_0_r.
  run_turn.
  destruct (session_get env _ endpoint 10) as [e|response]; cbn.
  { eexists _, _; split; [reflexivity|]; cbn.
    repeat split; try lia; [eexists; reflexivity|].
    right; exists e; repeat split. }
  destruct (Response.status_code response =? 200).
  { destruct (Response.json response) as [e|data]; cbn;
      [destruct e; cbn|];
      (eexists _, _; split; [reflexivity|]; cbn;
       repeat split; try lia; [eexists; reflexivity | left; reflexivity]). }
  destruct (is_rejection (Response.status_code response)
            && str_eqb test_type (lit "invalid")); cbn.
  { eexists _, _; split; [reflexivity|]; cbn.
    repeat split; try lia; [eexists; reflexivity | left; reflexivity]. }
  destruct (Response.status_code response =? 404);
    (eexists _, _; split; [reflexivity|]; cbn;
     repeat split; try lia; [eexists; reflexivity | left; reflexivity]).
Qed.

(** What a turn decides, from a result not yet settled: if it continues
    the result is still unsettled, with status 404 and this endpoint, and
    the test type is not "invalid"; if it breaks the result is settled. *)
Lemma turn_verdict env py city test_type start_time endpoint fr timestamp :
  unsettled timestamp city test_type (result fr) ->
  exists c fr',
    try_except (attempt env py city test_type start_time endpoint) on_fault fr
    = (inr c, fr') /\
    match c with
    | Continue =>
        unsettled timestamp city test_type (result fr') /\
        TestResult.status_code (result fr') = Some 404 /\
        TestResult.api_endpoint (result fr') = Some endpoint /\
        test_type <> lit "invalid"
    | Break => settled py city test_type (result fr')
    end.
Proof.
  intros (Hts & Hcity & Hty & Hp & He & Hd & Hv).
  run_turn.
  destruct (session_get env _ endpoint 10) as [e|response]; cbn.
  { eexists _, _; split; [reflexivity|]; cbn.
    right; right; cbn; split; [assumption|].
    intros H; apply app_eq_nil in H; destruct H as [_ H]; discriminate. }
  destruct (Response.status_code response =? 200) eqn:E200.
  { apply Z.eqb_eq in E200.
    destruct (Response.json response) as [e|data]; cbn.
    - destruct e; cbn; (eexists _, _; split; [reflexivity|]; cbn;
        right; right; cbn; split; [assumption|];
        intros H; apply app_eq_nil in H; destruct H as [_ H]; discriminate).
    - eexists _, _; split; [reflexivity|]; cbn.
      destruct (Validation.is_valid
                  (validate_weather_response py data city test_type)) eqn:Ev.
      + left; cbn; rewrite E200; repeat split.
        * apply report_consistent; exact Ev.
        * discriminate.
        * exists data; repeat split; exact Ev.
      + right; right; cbn; split; [reflexivity|].
        intros H; apply report_consistent in H; congruence. }
  destruct (is_rejection (Response.status_code response)) eqn:Erej; cbn.
  - destruct (str_eqb test_type (lit "invalid")) eqn:Einv; cbn.
    + eexists _, _; split; [reflexivity|]; cbn.
      right; left; cbn; apply str_eqb_eq in Einv.
      repeat split; [assumption|].
      exists (Response.status_code response); rewrite He; repeat split.
      exact Erej.
    + assert (Hne : test_type <> lit "invalid").
      { intros ->; rewrite str_eqb_refl in Einv; discriminate. }
      destruct (Response.status_code response =? 404) eqn:E404.
      * apply Z.eqb_eq in E404.
        eexists _, _; split; [reflexivity|]; cbn.
        rewrite E404; repeat split; assumption.
      * eexists _, _; split; [reflexivity|]; cbn.
        right; right; cbn; split; [assumption|].
        intros H; apply app_eq_nil in H; destruct H as [_ H]; discriminate.
  - destruct (Response.status_code response =? 404) eqn:E404.
    + unfold is_rejection in Erej; rewrite E404 in Erej; discriminate.
    + eexists _, _; split; [reflexivity|]; cbn.
      right; right; cbn; split; [assumption|].
      intros H; apply app_eq_nil in H; destruct H as [_ H]; discriminate.
Qed.

(* ================================================================== *)
(** * More on the loop and on the whole method *)
(* ================================================================== *)

(** One unfolding of the loop. *)
Lemma endpoint_loop_cons env py city test_type start_time endpoint rest fr :
  endpoint_loop env py city test_type start_time (endpoint :: rest) fr
  = match try_except (attempt env py city test_type start_time endpoint)
                     on_fault fr with
    | (inr Break, fr1) => (inr tt, fr1)
    | (inr Continue, fr1) =>
        endpoint_loop env py city test_type start_time rest fr1
    | (inl e, fr1) => (inl e, fr1)
    end.
Proof.
  cbn [endpoint_loop]; unfold bind at 1.
  destruct (try_except _ on_fault fr) as [[e|[|]] fr1]; reflexivity.
Qed.

Lemma finish_fields r :
  TestResult.timestamp (finish r) = TestResult.timestamp r /\
  TestResult.city (finish r) = TestResult.city r /\
  TestResult.test_type (finish r) = TestResult.test_type r /\
  TestResult.passed (finish r) = TestResult.passed r /\
  TestResult.status_code (finish r) = TestResult.status_code r /\
  TestResult.response_time_ms (finish r) = TestResult.response_time_ms r /\
  TestResult.response_data (finish r) = TestResult.response_data r /\
  TestResult.validation_results (finish r) = TestResult.validation_results r /\
  TestResult.api_endpoint (finish r) = TestResult.api_endpoint r.
Proof.
  unfold finish; destruct (TestResult.api_endpoint r) eqn:E;
    cbn; rewrite ?E; repeat split.
Qed.

Lemma finish_named r endpoint :
  TestResult.api_endpoint r = Some endpoint -> finish r = r.
Proof. intros H; unfold finish; rewrite H; reflexivity. Qed.

(** What the loop does on any list of endpoints, whatever the answers:
    it never raises; it requests a prefix of the list, in order, each with
    timeout 10, and at least one if there is any; it reads the clock at
    most once per request; it keeps the timestamp, city and test type;
    it leaves a status once a request was made, and keeps an endpoint once
    one is named. *)
Lemma loop_shape env py city test_type start_time endpoints :
  forall fr,
  exists m fr',
    endpoint_loop env py city test_type start_time endpoints fr
    = (inr tt, fr') /\
    (m <= List.length endpoints)%nat /\
    (endpoints <> [] -> (1 <= m)%nat) /\
    requests (world fr')
    = requests (world fr) ++ with_timeout 10 (firstn m endpoints) /\
    (clock_reads (world fr') <= clock_reads (world fr) + m)%nat /\
    TestResult.timestamp (result fr') = TestResult.timestamp (result fr) /\
    TestResult.city (result fr') = TestResult.city (result fr) /\
    TestResult.test_type (result fr') = TestResult.test_type (result fr) /\
    ((exists status, TestResult.status_code (result fr) = Some status) \/
     endpoints <> [] ->
     exists status, TestResult.status_code (result fr') = Some status) /\
    (TestResult.api_endpoint (result fr) <> None ->
     TestResult.api_endpoint (result fr') <> None).
Proof.
  induction endpoints as [|endpoint rest IH]; intros fr.
  - exists 0%nat, fr; cbn; rewrite app_nil_r.
    repeat split; try lia; try tauto.
  - destruct (turn_shape env py city test_type start_time endpoint fr)
      as (c & fr1 & Hturn & Hreq & Hclk & Hst & Hts & Hcity & Hty & Hep).
    assert (Hkeep : TestResult.api_endpoint (result fr) <> None ->
                    TestResult.api_endpoint (result fr1) <> None).
    { intros Hsome; destruct Hep as [-> | (e & _ & _ & ->)];
        [discriminate | exact Hsome]. }
    cbn [endpoint_loop]; unfold bind at 1; rewrite Hturn.
    destruct c.
    + exists 1%nat, fr1; cbn.
      repeat split; try lia; try assumption; intros; assumption.
    + destruct (IH fr1)
        as (m & fr' & -> & Hm & _ & Hreq' & Hclk' & Hts' & Hcity' & Hty'
            & Hst' & Hep').
      exists (S m), fr'; cbn [firstn List.length].
      split; [reflexivity|].
      split; [lia|]. split; [lia|].
      split; [rewrite Hreq', Hreq; unfold with_timeout; cbn;
              rewrite <- app_assoc; reflexivity|].
      split; [lia|].
      repeat split; try congruence.
      * intros _; apply Hst'; left; exact Hst.
      * intros Hsome; apply Hep', Hkeep, Hsome.
Qed.

(** What the mock synthesizer returns, further. *)
Lemma create_mock_test_result_shape env py self city test_type start_time w :
  exists r,
    create_mock_test_result env py self city test_type start_time w
    = (inr r, tick (tick w)) /\
    TestResult.city r = city /\
    TestResult.test_type r = test_type /\
    TestResult.timestamp r = now_isoformat env (S (clock_reads w)) /\
    TestResult.status_code r = Some 404 /\
    TestResult.api_endpoint r
    = Some (api_base_url self ++ lit "/weather?city=" ++ city) /\
    TestResult.passed r
    = str_eqb test_type (lit "invalid")
      && str_in (strip city) canonical_markers /\
    reported_valid (TestResult.validation_results r)
    = Some (TestResult.passed r) /\
    TestResult.response_data r = None /\
    List.length (TestResult.errors r) = 1%nat.
Proof.
  unfold create_mock_test_result, bind, time, now, ret.
  destruct (str_eqb test_type (lit "invalid")
            && str_in (strip city) canonical_markers);
    [|destruct (str_eqb test_type (lit "valid")
                && str_in city (valid_cities self))];
    cbn; eexists; (split; [reflexivity|]); repeat split.
Qed.

(** X7: every result the method returns has a status code, never null,
    and repeats the city and the test type it was called with. *)
Theorem result_always_has_status (env : Env) (py : PyFloat)
    (self : WeatherAPITester) (city test_type : str) (w : World) :
  exists r w',
    test_api_endpoint env py self city test_type w = (inr r, w') /\
    (exists status, TestResult.status_code r = Some status) /\
    TestResult.city r = city /\
    TestResult.test_type r = test_type.
Proof.
  rewrite test_api_endpoint_gate.
  destruct (check_for_weather_endpoints_returns env py self (started w))
    as (b & w1 & ->).
  destruct b.
  - unfold run_loop.
    destruct (loop_shape env py city test_type
                (time_time env (clock_reads w)) (possible_endpoints self city)
                (mkFrame w1 (initial_result
                               (now_isoformat env (S (clock_reads w)))
                               city test_type)))
      as (m & fr' & -> & _ & _ & _ & _ & _ & Hcity & Hty & Hst & _).
    eexists _, _; split; [reflexivity|].
    destruct (finish_fields (result fr'))
      as (_ & Fc & Ft & _ & Fs & _).
    rewrite Fc, Ft, Fs; repeat split; try assumption.
    apply Hst; right; discriminate.
  - destruct (create_mock_test_result_shape env py self city test_type
                (time_time env (clock_reads w)) w1)
      as (r & -> & Hc & Ht & _ & Hs & _).
    exists r, (tick (tick w1)); repeat split; try assumption.
    exists 404; exact Hs.
Qed.

(** X8: a result without an endpoint is one whose very first candidate
    request raised, after the prober had reported an API: it has not
    passed, its time is the initial 0, it has no payload, its status is
    the sentinel of the fault, and its errors are the message of the
    fault followed by "No valid API endpoint found". *)
Theorem null_endpoint_means_first_request_failed (env : Env) (py : PyFloat)
    (self : WeatherAPITester) (city test_type : str) (w w' : World)
    (r : TestResult.t) :
  test_api_endpoint env py self city test_type w = (inr r, w') ->
  TestResult.api_endpoint r = None ->
  exists w1 e,
    check_for_weather_endpoints env py self (started w) = (inr true, w1) /\
    answer env w1 0 (candidate self city 0) 10 = inl e /\
    TestResult.passed r = false /\
    TestResult.response_time_ms r = NInt 0 /\
    TestResult.response_data r = None /\
    TestResult.status_code r = Some (fault_status e) /\
    TestResult.errors r
    = [fault_message e; lit "No valid API endpoint found"].
Proof.
  rewrite test_api_endpoint_gate.
  destruct (check_for_weather_endpoints_returns env py self (started w))
    as (b & w1 & Hprobe); rewrite Hprobe.
  destruct b.
  2:{ destruct (create_mock_test_result_shape env py self city test_type
                  (time_time env (clock_reads w)) w1)
        as (r0 & -> & _ & _ & _ & _ & Hep & _).
      intros E; injection E as <- _; rewrite Hep; discriminate. }
  unfold run_loop, candidate, possible_endpoints; cbn [nth].
  rewrite endpoint_loop_cons.
  destruct (turn_shape env py city test_type (time_time env (clock_reads w))
              (api_base_url self ++ lit "/api/weather/" ++ city)
              (mkFrame w1 (initial_result
                             (now_isoformat env (S (clock_reads w)))
                             city test_type)))
    as (c & fr1 & -> & _ & _ & _ & _ & _ & _ & Hep).
  destruct Hep as [Hnamed | (e & Hfault & -> & Hres)].
  - assert (Hrest : forall fr', TestResult.api_endpoint (result fr') <> None ->
                      (inr (finish (result fr')), world fr')
                      = (inr r, w') :> (exn + TestResult.t) * World ->
                      TestResult.api_endpoint r = None -> False).
    { intros fr' Hsome E Hnone; injection E as <- _.
      destruct (finish_fields (result fr')) as (_ & _ & _ & _ & _ & _ & _ & _ & F).
      rewrite F in Hnone; contradiction. }
    destruct c.
    + intros E Hnone; exfalso; apply (Hrest fr1); try assumption.
      rewrite Hnamed; discriminate.
    + destruct (loop_shape env py city test_type
                  (time_time env (clock_reads w))
                  [api_base_url self ++ lit "/weather?city=" ++ city;
                   api_base_url self ++ lit "/api/weather?city=" ++ city;
                   api_base_url self ++ lit "/weather/" ++ city] fr1)
        as (m & fr' & -> & _ & _ & _ & _ & _ & _ & _ & _ & Hkeep).
      intros E Hnone; exfalso; apply (Hrest fr'); try assumption.
      apply Hkeep; rewrite Hnamed; discriminate.
  - intros E _; injection E as <- _.
    exists w1, e; rewrite Hres; cbn in Hfault |- *.
    repeat split; assumption.
Qed.

Lemma null_endpoint_means_first_request_failed_witness :
  exists r,
    fst (test_api_endpoint env_timeout py0 tester (lit "London") (lit "valid") w0)
    = inr r /\
    TestResult.api_endpoint r = None /\
    TestResult.passed r = false /\
    TestResult.response_time_ms r = NInt 0.
Proof.
  eexists; split; [vm_compute; reflexivity|].
  split; [reflexivity|].
  destruct (null_endpoint_means_first_request_failed env_timeout py0 tester
              (lit "London") (lit "valid") w0 _ _
              ltac:(vm_compute; reflexivity) eq_refl)
    as (w1 & e & _ & _ & Hp & Ht & _).
  split; assumption.
Defined.

(** X9: one call of the method sends at most eight requests: between
    one and four probes, each with timeout 5, then at most four candidate
    requests, each with timeout 10, both in their fixed order; and it
    reads the clock at most six times. *)
Theorem request_discipline (env : Env) (py : PyFloat)
    (self : WeatherAPITester) (city test_type : str) (w : World) :
  exists r w' n m,
    test_api_endpoint env py self city test_type w = (inr r, w') /\
    (1 <= n <= 4)%nat /\ (m <= 4)%nat /\
    requests w'
    = requests w
      ++ with_timeout 5 (firstn n (test_endpoints self))
      ++ with_timeout 10 (firstn m (possible_endpoints self city)) /\
    (clock_reads w' <= clock_reads w + 6)%nat.
Proof.
  rewrite test_api_endpoint_gate, check_for_weather_endpoints_run.
  set (b := _ || _ || _ || _).
  set (n := probes_sent _ _ _).
  assert (Hn : (1 <= n <= 4)%nat).
  { subst n; unfold probes_sent.
    repeat match goal with |- context [if ?c then _ else _] => destruct c end;
      lia. }
  destruct b.
  - unfold run_loop.
    match goal with
    | |- context [endpoint_loop _ _ _ _ ?st ?eps ?fr] =>
        destruct (loop_shape env py city test_type st eps fr)
          as (m & fr' & -> & Hm & _ & Hreq & Hclk & _)
    end.
    exists (finish (result fr')), (world fr'), n, m.
    change (m <= 4)%nat in Hm.
    split; [reflexivity|]. split; [exact Hn|]. split; [exact Hm|].
    cbn in Hreq, Hclk.
    split; [rewrite Hreq, <- app_assoc; reflexivity | lia].
  - destruct (create_mock_test_result_shape env py self city test_type
                (time_time env (clock_reads w))
                (mkWorld (requests (started w)
                          ++ with_timeout 5 (firstn n (test_endpoints self)))
                         (clock_reads (started w))))
      as (r & -> & _).
    exists r, (tick (tick (mkWorld (requests (started w)
                          ++ with_timeout 5 (firstn n (test_endpoints self)))
                         (clock_reads (started w))))), n, 0%nat.
    split; [reflexivity|]. split; [exact Hn|]. split; [lia|].
    cbn; rewrite app_nil_r; split; [reflexivity | lia].
Qed.

(** The loop past [k] endpoints that answer 404 under a test type other
    than "invalid": the result is as unsettled as before, [k] requests
    are logged and the clock was read [k] times. *)
Lemma loop_after_continues env py city test_type start_time endpoints :
  forall (k : nat) (fr : Frame) (timestamp : str),
    (k <= List.length endpoints)%nat ->
    unsettled timestamp city test_type (result fr) ->
    (forall i, (i < k)%nat ->
       exists response,
         answer env (world fr) i (nth i endpoints []) 10 = inr response /\
         Response.status_code response = 404 /\
         test_type <> lit "invalid") ->
    exists fr_k,
      endpoint_loop env py city test_type start_time endpoints fr
      = endpoint_loop env py city test_type start_time (skipn k endpoints) fr_k
      /\ unsettled timestamp city test_type (result fr_k)
      /\ requests (world fr_k)
         = requests (world fr) ++ with_timeout 10 (firstn k endpoints)
      /\ clock_reads (world fr_k) = (clock_reads (world fr) + k)%nat.
Proof.
  induction endpoints as [|endpoint rest IH]; intros k fr timestamp Hk Hun Hpre.
  - cbn in Hk; assert (k = 0)%nat as -> by lia.
    exists fr; cbn; rewrite app_nil_r, Nat.add_0_r.
    split; [reflexivity|]; split; [exact Hun|]; split; reflexivity.
  - destruct k as [|k].
    + exists fr; cbn; rewrite app_nil_r, Nat.add_0_r.
    split; [reflexivity|]; split; [exact Hun|]; split; reflexivity.
    + destruct (Hpre 0%nat ltac:(lia)) as (response & H0 & H404 & Hty).
      cbn [nth] in H0.
      rewrite endpoint_loop_cons.
      rewrite (turn_continue env py city test_type start_time endpoint fr
                 response H0 H404 Hty).
      destruct (IH k (mkFrame (tick (sent (world fr) endpoint 10))
                   (TestResult.update endpoint 404
                      (NFloat (round2 py
                         (elapsed_ms (time_time env (clock_reads (world fr)))
                                     start_time)))
                      (result fr))) timestamp)
        as (fr_k & Hloop & Hun' & Hreq & Hclk).
      * cbn in Hk; lia.
      * exact Hun.
      * intros i Hi; cbn [world]; rewrite answer_continue.
        apply (Hpre (S i)); lia.
      * exists fr_k; cbn [skipn firstn].
        split; [exact Hloop|]. split; [exact Hun'|].
        cbn in Hreq, Hclk; split.
        -- rewrite Hreq; unfold with_timeout; cbn; rewrite <- app_assoc;
             reflexivity.
        -- lia.
Qed.

Lemma skipn_nth (l : list str) (k : nat) :
  (k < List.length l)%nat -> skipn k l = nth k l [] :: skipn (S k) l.
Proof.
  revert k; induction l as [|x l IH]; intros k Hk; cbn in Hk; [lia|].
  destruct k as [|k]; [reflexivity|].
  cbn [skipn nth]; rewrite IH by lia; reflexivity.
Qed.

Lemma firstn_S_nth (l : list str) (k : nat) :
  (k < List.length l)%nat -> firstn (S k) l = firstn k l ++ [nth k l []].
Proof.
  revert k; induction l as [|x l IH]; intros k Hk; cbn in Hk; [lia|].
  destruct k as [|k]; [reflexivity|].
  cbn [firstn nth app]; rewrite <- IH by lia; reflexivity.
Qed.

(** The method up to the turn that settles it: after a prober that
    reported an API and [k] candidates that answered 404, the loop is at
    the [k]-th candidate with an unsettled result, and whatever frame that
    turn breaks with is what the method returns. *)
Lemma settle_at env py self city test_type w w1 k :
  check_for_weather_endpoints env py self (started w) = (inr true, w1) ->
  (k < 4)%nat ->
  (forall i, (i < k)%nat ->
     exists response,
       answer env w1 i (candidate self city i) 10 = inr response /\
       Response.status_code response = 404 /\
       test_type <> lit "invalid") ->
  exists fr_k,
    unsettled (now_isoformat env (S (clock_reads w))) city test_type
              (result fr_k) /\
    requests (world fr_k)
    = requests w1 ++ with_timeout 10 (firstn k (possible_endpoints self city)) /\
    clock_reads (world fr_k) = (clock_reads w + 2 + k)%nat /\
    (forall url timeout,
       answer env (world fr_k) 0 url timeout = answer env w1 k url timeout) /\
    forall fr',
      try_except (attempt env py city test_type (time_time env (clock_reads w))
                    (candidate self city k)) on_fault fr_k
      = (inr Break, fr') ->
      test_api_endpoint env py self city test_type w
      = (inr (finish (result fr')), world fr').
Proof.
  intros Hprobe Hk Hpre.
  assert (Hclock : clock_reads w1 = S (S (clock_reads w))).
  { rewrite check_for_weather_endpoints_run in Hprobe.
    injection Hprobe as _ <-; reflexivity. }
  destruct (loop_after_continues env py city test_type
              (time_time env (clock_reads w)) (possible_endpoints self city)
              k (mkFrame w1 (initial_result
                               (now_isoformat env (S (clock_reads w)))
                               city test_type))
              (now_isoformat env (S (clock_reads w))))
    as (fr_k & Hloop & Hun & Hreq & Hclk).
  { cbn; lia. }
  { repeat split. }
  { exact Hpre. }
  exists fr_k; cbn [world] in Hreq, Hclk.
  split; [exact Hun|]. split; [exact Hreq|].
  split; [lia|].
  split.
  - intros url timeout; unfold answer.
    rewrite Hreq, length_app, Nat.add_0_r.
    unfold with_timeout; rewrite length_map, firstn_length_le by (cbn; lia).
    reflexivity.
  - intros fr' Hturn.
    rewrite test_api_endpoint_gate, Hprobe; unfold run_loop.
    rewrite Hloop, skipn_nth by (cbn; lia).
    rewrite endpoint_loop_cons.
    change (nth k (possible_endpoints self city) [])
      with (candidate self city k).
    rewrite Hturn; reflexivity.
Qed.

(** X10: the first candidate that does not answer 404 settles the
    result; when it answers 200 with a JSON body, the result stores the
    payload and the validator's report, takes [passed] and [errors] from
    the report, names that candidate, and its time is measured at the
    clock reading that follows this answer; no later candidate is
    requested. *)
Theorem first_payload_settles (env : Env) (py : PyFloat)
    (self : WeatherAPITester) (city test_type : str) (w w1 : World)
    (k : nat) (response : Response.t) (data : JSON) :
  check_for_weather_endpoints env py self (started w) = (inr true, w1) ->
  (k < 4)%nat ->
  (forall i, (i < k)%nat ->
     exists response,
       answer env w1 i (candidate self city i) 10 = inr response /\
       Response.status_code response = 404 /\
       test_type <> lit "invalid") ->
  answer env w1 k (candidate self city k) 10 = inr response ->
  Response.status_code response = 200 ->
  Response.json response = inr data ->
  exists r w',
    test_api_endpoint env py self city test_type w = (inr r, w') /\
    TestResult.passed r
    = Validation.is_valid (validate_weather_response py data city test_type) /\
    TestResult.errors r
    = Validation.errors (validate_weather_response py data city test_type) /\
    TestResult.validation_results r
    = Report (validate_weather_response py data city test_type) /\
    TestResult.response_data r = Some data /\
    TestResult.api_endpoint r = Some (candidate self city k) /\
    TestResult.status_code r = Some 200 /\
    TestResult.response_time_ms r
    = NFloat (round2 py (elapsed_ms (time_time env (clock_reads w + 2 + k))
                                    (time_time env (clock_reads w)))) /\
    requests w'
    = requests w1
      ++ with_timeout 10 (firstn (S k) (possible_endpoints self city)).
Proof.
  intros Hprobe Hk Hpre Hanswer H200 Hjson.
  destruct (settle_at env py self city test_type w w1 k Hprobe Hk Hpre)
    as (fr_k & Hun & Hreq & Hclk & Hans & Hrun).
  rewrite <- Hans in Hanswer.
  rewrite (Hrun _ (turn_payload env py city test_type _ _ fr_k response data
                     Hanswer H200 Hjson)).
  eexists _, _; split; [reflexivity|].
  rewrite (finish_named _ (candidate self city k)) by reflexivity.
  rewrite (firstn_S_nth (possible_endpoints self city) k) by (cbn; lia).
  unfold with_timeout in *.
  rewrite map_app, (app_assoc (requests w1)), <- Hreq.
  cbn; rewrite Hclk; repeat split.
Qed.

(** Scenario B: Paris under "valid", the first candidate serving the
    payload. *)
Lemma first_payload_settles_witness :
  exists r w',
    test_api_endpoint env_paris py0 tester (lit "Paris") (lit "valid") w0
    = (inr r, w') /\
    TestResult.passed r = true /\
    TestResult.response_data r = Some scenario_B /\
    TestResult.api_endpoint r
    = Some (lit "http://localhost:5000/api/weather/Paris").
Proof.
  destruct (first_payload_settles env_paris py0 tester (lit "Paris")
              (lit "valid") w0 probed 0%nat
              (Response.mk 200 (lit "(the body of scenario B)")
                           (inr scenario_B))
              scenario_B eq_refl ltac:(lia) ltac:(intros i Hi; lia)
              eq_refl eq_refl eq_refl)
    as (r & w' & E & Hp & _ & _ & Hd & Ha & _).
  exists r, w'; repeat split; assumption.
Defined.

(** X11: when the candidate that settles the result answers 200 with a
    body that does not decode as JSON, the search stops there: the result
    has not passed, its only error is "Response is not valid JSON", it
    has no payload and no report, and it keeps the status 200. *)
Theorem undecodable_body_settles (env : Env) (py : PyFloat)
    (self : WeatherAPITester) (city test_type : str) (w w1 : World)
    (k : nat) (response : Response.t) (msg : str) :
  check_for_weather_endpoints env py self (started w) = (inr true, w1) ->
  (k < 4)%nat ->
  (forall i, (i < k)%nat ->
     exists response,
       answer env w1 i (candidate self city i) 10 = inr response /\
       Response.status_code response = 404 /\
       test_type <> lit "invalid") ->
  answer env w1 k (candidate self city k) 10 = inr response ->
  Response.status_code response = 200 ->
  Response.json response = inl (JSONDecodeError msg) ->
  exists r w',
    test_api_endpoint env py self city test_type w = (inr r, w') /\
    TestResult.passed r = false /\
    TestResult.errors r = [lit "Response is not valid JSON"] /\
    TestResult.validation_results r = NoValidation /\
    TestResult.response_data r = None /\
    TestResult.api_endpoint r = Some (candidate self city k) /\
    TestResult.status_code r = Some 200 /\
    requests w'
    = requests w1
      ++ with_timeout 10 (firstn (S k) (possible_endpoints self city)).
Proof.
  intros Hprobe Hk Hpre Hanswer H200 Hjson.
  destruct (settle_at env py self city test_type w w1 k Hprobe Hk Hpre)
    as (fr_k & Hun & Hreq & Hclk & Hans & Hrun).
  rewrite <- Hans in Hanswer.
  rewrite (Hrun _ (turn_undecodable env py city test_type _ _ fr_k response
                     msg Hanswer H200 Hjson)).
  eexists _, _; split; [reflexivity|].
  rewrite (finish_named _ (candidate self city k)) by reflexivity.
  destruct Hun as (_ & _ & _ & Hp & He & Hd & Hv).
  rewrite (firstn_S_nth (possible_endpoints self city) k) by (cbn; lia).
  unfold with_timeout in *.
  rewrite map_app, (app_assoc (requests w1)), <- Hreq.
  cbn; rewrite Hp, He, Hd, Hv; repeat split.
Qed.

Lemma undecodable_body_settles_witness :
  exists r w',
    test_api_endpoint env_html py0 tester (lit "London") (lit "valid") w0
    = (inr r, w') /\
    TestResult.passed r = false /\
    TestResult.errors r = [lit "Response is not valid JSON"] /\
    List.length (requests w') = 4%nat.
Proof.
  destruct (undecodable_body_settles env_html py0 tester (lit "London")
              (lit "valid") w0 probed 0%nat
              (Response.mk 200 (lit "<html></html>")
                           (inl (JSONDecodeError (lit "Expecting value"))))
              (lit "Expecting value") eq_refl ltac:(lia)
              ltac:(intros i Hi; lia) eq_refl eq_refl eq_refl)
    as (r & w' & E & Hp & He & _ & _ & _ & _ & Hw).
  exists r, w'; repeat split; try assumption.
  rewrite Hw; reflexivity.
Defined.

(** X12: when the candidate that settles the result answers a status
    that is neither 200 nor 404 nor, under "invalid", 400 or 422, the
    search stops there: the result has not passed, its only error is
    "HTTP", the status and at most the first hundred characters of the
    body, and the remaining candidates are not requested. *)
Theorem other_status_settles (env : Env) (py : PyFloat)
    (self : WeatherAPITester) (city test_type : str) (w w1 : World)
    (k : nat) (response : Response.t) :
  check_for_weather_endpoints env py self (started w) = (inr true, w1) ->
  (k < 4)%nat ->
  (forall i, (i < k)%nat ->
     exists response,
       answer env w1 i (candidate self city i) 10 = inr response /\
       Response.status_code response = 404 /\
       test_type <> lit "invalid") ->
  answer env w1 k (candidate self city k) 10 = inr response ->
  Response.status_code response <> 200 ->
  Response.status_code response <> 404 ->
  (test_type = lit "invalid" ->
   Response.status_code response <> 400 /\
   Response.status_code response <> 422) ->
  exists r w' excerpt,
    test_api_endpoint env py self city test_type w = (inr r, w') /\
    TestResult.passed r = false /\
    TestResult.errors r
    = [lit "HTTP " ++ str_of_Z (Response.status_code response)
           ++ lit ": " ++ excerpt] /\
    excerpt = firstn 100 (Response.text response) /\
    (List.length excerpt <= 100)%nat /\
    TestResult.api_endpoint r = Some (candidate self city k) /\
    TestResult.status_code r = Some (Response.status_code response) /\
    requests w'
    = requests w1
      ++ with_timeout 10 (firstn (S k) (possible_endpoints self city)).
Proof.
  intros Hprobe Hk Hpre Hanswer H200 H404 Hinv.
  assert (Hrej : is_rejection (Response.status_code response)
                 && str_eqb test_type (lit "invalid") = false).
  { destruct (str_eqb test_type (lit "invalid")) eqn:E;
      [|apply andb_false_r].
    apply str_eqb_eq in E; destruct (Hinv E) as [H400 H422].
    rewrite andb_true_r; unfold is_rejection.
    apply Z.eqb_neq in H404, H400, H422; rewrite H404, H400, H422.
    reflexivity. }
  destruct (settle_at env py self city test_type w w1 k Hprobe Hk Hpre)
    as (fr_k & Hun & Hreq & Hclk & Hans & Hrun).
  rewrite <- Hans in Hanswer.
  pose proof (turn_other_status env py city test_type
                (time_time env (clock_reads w)) (candidate self city k)
                fr_k response Hanswer H200 H404 Hrej) as Hturn.
  set (fr' := mkFrame _ _) in Hturn.
  rewrite (Hrun fr' Hturn).
  exists (finish (result fr')), (world fr'),
    (firstn 100 (Response.text response)).
  split; [reflexivity|]; subst fr'.
  rewrite (finish_named _ (candidate self city k)) by reflexivity.
  destruct Hun as (_ & _ & _ & Hp & He & _).
  rewrite (firstn_S_nth (possible_endpoints self city) k) by (cbn; lia).
  unfold with_timeout in *.
  rewrite map_app, (app_assoc (requests w1)), <- Hreq.
  repeat split; try apply firstn_le_length;
    cbn -[firstn]; rewrite ?Hp, ?He; reflexivity.
Qed.

Lemma other_status_settles_witness :
  exists r w',
    test_api_endpoint env_500 py0 tester (lit "London") (lit "valid") w0
    = (inr r, w') /\
    TestResult.passed r = false /\
    TestResult.errors r = [lit "HTTP 500: Internal Server Error"] /\
    List.length (requests w') = 4%nat.
Proof.
  destruct (other_status_settles env_500 py0 tester (lit "London")
              (lit "valid") w0 probed 0%nat
              (Response.mk 500 (lit "Internal Server Error")
                           (inl (JSONDecodeError (lit "Expecting value"))))
              eq_refl ltac:(lia) ltac:(intros i Hi; lia) eq_refl
              ltac:(discriminate) ltac:(discriminate)
              ltac:(intros H; vm_compute in H; discriminate))
    as (r & w' & x & E & Hp & He & -> & _ & _ & _ & Hw).
  exists r, w'; repeat split; try assumption.
  rewrite Hw; reflexivity.
Defined.

(** The loop from an unsettled result: it ends settled, or, every
    endpoint having answered 404 under a test type other than "invalid",
    still unsettled, with the status 404 and the last endpoint. *)
Lemma loop_verdict env py city test_type start_time endpoints :
  forall (fr : Frame) (timestamp : str),
    unsettled timestamp city test_type (result fr) ->
    exists fr',
      endpoint_loop env py city test_type start_time endpoints fr
      = (inr tt, fr') /\
      (settled py city test_type (result fr') \/
       (unsettled timestamp city test_type (result fr') /\
        match endpoints with
        | [] => fr' = fr
        | _ :: _ =>
            TestResult.status_code (result fr') = Some 404 /\
            TestResult.api_endpoint (result fr') = Some (last endpoints []) /\
            test_type <> lit "invalid"
        end)).
Proof.
  induction endpoints as [|endpoint rest IH]; intros fr timestamp Hun.
  - exists fr; split; [reflexivity|]; right; split; [exact Hun | reflexivity].
  - rewrite endpoint_loop_cons.
    destruct (turn_verdict env py city test_type start_time endpoint fr
                timestamp Hun) as (c & fr1 & -> & Hc).
    destruct c.
    + exists fr1; split; [reflexivity | left; exact Hc].
    + destruct Hc as (Hun1 & Hs1 & Ha1 & Hty).
      destruct (IH fr1 timestamp Hun1) as (fr' & -> & Hfin).
      exists fr'; split; [reflexivity|].
      destruct Hfin as [Hset | (Hun' & Hlast)]; [left; exact Hset|].
      right; split; [exact Hun'|].
      destruct rest as [|e2 rest'].
      * subst fr'; repeat split; assumption.
      * exact Hlast.
Qed.

(** X13: under any test type other than "invalid", a result has passed
    only if a candidate answered 200 with a payload the validator
    accepts: its status is 200, it has no error, and it stores that
    payload with its valid report. *)
Theorem pass_needs_valid_payload_unless_invalid (env : Env) (py : PyFloat)
    (self : WeatherAPITester) (city test_type : str) (w w' : World)
    (r : TestResult.t) :
  test_api_endpoint env py self city test_type w = (inr r, w') ->
  test_type <> lit "invalid" ->
  TestResult.passed r = true ->
  TestResult.status_code r = Some 200 /\
  TestResult.errors r = [] /\
  exists data,
    TestResult.response_data r = Some data /\
    TestResult.validation_results r
    = Report (validate_weather_response py data city test_type) /\
    Validation.is_valid (validate_weather_response py data city test_type)
    = true.
Proof.
  rewrite test_api_endpoint_gate.
  destruct (check_for_weather_endpoints_returns env py self (started w))
    as (b & w1 & ->).
  destruct b.
  - unfold run_loop.
    destruct (loop_verdict env py city test_type
                (time_time env (clock_reads w)) (possible_endpoints self city)
                (mkFrame w1 (initial_result
                               (now_isoformat env (S (clock_reads w)))
                               city test_type))
                (now_isoformat env (S (clock_reads w))))
      as (fr' & -> & Hfin); [repeat split|].
    intros E Hty Hpass; injection E as <- _.
    destruct (finish_fields (result fr'))
      as (_ & _ & _ & Fp & Fs & _ & Fd & Fv & Fa).
    rewrite Fp in Hpass.
    destruct Hfin as [[H1 | [H2 | H3]] | (Hun & _)].
    + destruct H1 as (_ & He & Hs & Ha & data & Hd & Hv & Hok).
      destruct (TestResult.api_endpoint (result fr')) as [endpoint|] eqn:Ea;
        [|contradiction].
      rewrite (finish_named _ endpoint Ea).
      split; [exact Hs|]; split; [exact He|].
      exists data; repeat split; assumption.
    + destruct H2 as (_ & Hinv & _); contradiction.
    + destruct H3 as (Hp & _); congruence.
    + destruct Hun as (_ & _ & _ & Hp & _); congruence.
  - destruct (create_mock_test_result_shape env py self city test_type
                (time_time env (clock_reads w)) w1)
      as (r0 & -> & _ & _ & _ & _ & _ & Hp & _).
    intros E Hty Hpass; injection E as <- _.
    rewrite Hp in Hpass; apply andb_true_iff in Hpass.
    destruct Hpass as [Hinv _]; apply str_eqb_eq in Hinv; contradiction.
Qed.

Lemma pass_needs_valid_payload_unless_invalid_witness :
  exists r,
    fst (test_api_endpoint env_paris py0 tester (lit "Paris") (lit "valid") w0)
    = inr r /\
    TestResult.status_code r = Some 200 /\
    TestResult.errors r = [].
Proof.
  eexists; split; [vm_compute; reflexivity|].
  destruct (pass_needs_valid_payload_unless_invalid env_paris py0 tester
              (lit "Paris") (lit "valid") w0 _ _
              ltac:(vm_compute; reflexivity)
              ltac:(intros H; vm_compute in H; discriminate) eq_refl)
    as (Hs & He & _).
  split; assumption.
Defined.

(** X14: a result that has not passed and yet shows no error is the one
    of the exhausted search: the test type is not "invalid", the status
    is 404, the endpoint named is the fourth candidate, and there is no
    payload and no report.  Every other failure carries an error. *)
Theorem errorless_failure_is_exhausted_search (env : Env) (py : PyFloat)
    (self : WeatherAPITester) (city test_type : str) (w w' : World)
    (r : TestResult.t) :
  test_api_endpoint env py self city test_type w = (inr r, w') ->
  TestResult.passed r = false ->
  TestResult.errors r = [] ->
  test_type <> lit "invalid" /\
  TestResult.status_code r = Some 404 /\
  TestResult.api_endpoint r = Some (candidate self city 3) /\
  TestResult.response_data r = None /\
  TestResult.validation_results r = NoValidation.
Proof.
  rewrite test_api_endpoint_gate.
  destruct (check_for_weather_endpoints_returns env py self (started w))
    as (b & w1 & ->).
  destruct b.
  - unfold run_loop.
    destruct (loop_verdict env py city test_type
                (time_time env (clock_reads w)) (possible_endpoints self city)
                (mkFrame w1 (initial_result
                               (now_isoformat env (S (clock_reads w)))
                               city test_type))
                (now_isoformat env (S (clock_reads w))))
      as (fr' & -> & Hfin); [repeat split|].
    intros E Hfail Hnone; injection E as <- _.
    destruct (finish_fields (result fr')) as (_ & _ & _ & Fp & _).
    rewrite Fp in Hfail.
    destruct Hfin as [[H1 | [H2 | H3]] | (Hun & Hs & Ha & Hty)].
    + destruct H1 as (Hp & _); congruence.
    + destruct H2 as (Hp & _); congruence.
    + destruct H3 as (_ & He); exfalso; apply He.
      unfold finish in Hnone.
      destruct (TestResult.api_endpoint (result fr')); [exact Hnone|].
      cbn in Hnone; apply app_eq_nil in Hnone; tauto.
    + rewrite (finish_named _ _ Ha).
      destruct Hun as (_ & _ & _ & _ & _ & Hd & Hv).
      repeat split; assumption.
  - destruct (create_mock_test_result_shape env py self city test_type
                (time_time env (clock_reads w)) w1)
      as (r0 & -> & _ & _ & _ & _ & _ & _ & _ & _ & Hlen).
    intros E _ Hnone; injection E as <- _.
    rewrite Hnone in Hlen; discriminate.
Qed.

Lemma errorless_failure_is_exhausted_search_witness :
  exists r,
    fst (test_api_endpoint env_all_404 py0 tester (lit "London") (lit "valid")
           w0) = inr r /\
    TestResult.status_code r = Some 404 /\
    TestResult.api_endpoint r = Some (lit "http://localhost:5000/weather/London").
Proof.
  eexists; split; [vm_compute; reflexivity|].
  destruct (errorless_failure_is_exhausted_search env_all_404 py0 tester
              (lit "London") (lit "valid") w0 _ _
              ltac:(vm_compute; reflexivity) eq_refl eq_refl)
    as (_ & Hs & Ha & _).
  split; assumption.
Defined.

(** One turn under the test type "invalid", from a result that has not
    passed: it breaks after its one request, and the result has passed
    exactly when the answer is a rejection or a 200 whose payload the
    validator accepts. *)
Lemma invalid_turn_policy env py city start_time endpoint fr :
  TestResult.passed (result fr) = false ->
  exists fr',
    try_except (attempt env py city (lit "invalid") start_time endpoint)
               on_fault fr = (inr Break, fr') /\
    requests (world fr') = requests (world fr) ++ [(endpoint, 10)] /\
    (TestResult.passed (result fr') = true <->
     exists response,
       answer env (world fr) 0 endpoint 10 = inr response /\
       (is_rejection (Response.status_code response) = true \/
        (Response.status_code response = 200 /\
         exists data,
           Response.json response = inr data /\
           Validation.is_valid
             (validate_weather_response py data city (lit "invalid"))
           = true))).
Proof.
  intros Hp; unfold answer; rewrite Nat.add_0_r.
  run_turn.
  destruct (session_get env _ endpoint 10) as [e|response]; cbn.
  { eexists; split; [reflexivity|]; cbn; split; [reflexivity|].
    rewrite Hp; split; [discriminate|].
    intros (r & E & _); discriminate. }
  destruct (Response.status_code response =? 200) eqn:E200.
  - apply Z.eqb_eq in E200.
    assert (Hnot : is_rejection (Response.status_code response) = false)
      by (rewrite E200; reflexivity).
    destruct (Response.json response) as [e|data] eqn:Ej; cbn.
    + destruct e; cbn;
        (eexists; split; [reflexivity|]; cbn; split; [reflexivity|];
         rewrite Hp; split; [discriminate|];
         intros (r & E & [Hr | (_ & d & Hd & _)]); injection E as <-;
         congruence).
    + eexists; split; [reflexivity|]; cbn; split; [reflexivity|].
      split.
      * intros Hv; exists response; split; [reflexivity|].
        right; split; [exact E200|]; exists data; split;
          [exact Ej | exact Hv].
      * intros (r & E & [Hr | (_ & d & Hd & Hv)]); injection E as <-;
          [congruence|].
        rewrite Ej in Hd; injection Hd as <-; exact Hv.
  - apply Z.eqb_neq in E200.
    rewrite str_eqb_refl, andb_true_r.
    destruct (is_rejection (Response.status_code response)) eqn:Erej; cbn.
    + eexists; split; [reflexivity|]; cbn; split; [reflexivity|].
      split; [|reflexivity].
      intros _; exists response; split; [reflexivity | left; exact Erej].
    + destruct (Response.status_code response =? 404) eqn:E404.
      { unfold is_rejection in Erej; rewrite E404 in Erej; discriminate. }
      eexists; split; [reflexivity|]; cbn; split; [reflexivity|].
      rewrite Hp; split; [discriminate|].
      intros (r & E & [Hr | (H200 & _)]); injection E as <-; congruence.
Qed.

(** X15: under the test type "invalid", once the prober has reported an
    API, exactly one candidate is requested, whatever it answers, and the
    result has passed exactly when that first candidate answers 400, 404
    or 422, or answers 200 with a payload the validator accepts. *)
Theorem invalid_test_policy (env : Env) (py : PyFloat)
    (self : WeatherAPITester) (city : str) (w w1 : World) :
  check_for_weather_endpoints env py self (started w) = (inr true, w1) ->
  exists r w',
    test_api_endpoint env py self city (lit "invalid") w = (inr r, w') /\
    requests w' = requests w1 ++ [(candidate self city 0, 10)] /\
    (TestResult.passed r = true <->
     exists response,
       answer env w1 0 (candidate self city 0) 10 = inr response /\
       (Response.status_code response = 400 \/
        Response.status_code response = 404 \/
        Response.status_code response = 422 \/
        (Response.status_code response = 200 /\
         exists data,
           Response.json response = inr data /\
           Validation.is_valid
             (validate_weather_response py data city (lit "invalid"))
           = true))).
Proof.
  intros Hprobe.
  rewrite test_api_endpoint_gate, Hprobe.
  unfold run_loop, candidate, possible_endpoints; cbn [nth].
  rewrite endpoint_loop_cons.
  destruct (invalid_turn_policy env py city (time_time env (clock_reads w))
              (api_base_url self ++ lit "/api/weather/" ++ city)
              (mkFrame w1 (initial_result
                             (now_isoformat env (S (clock_reads w)))
                             city (lit "invalid"))) eq_refl)
    as (fr' & -> & Hreq & Hiff).
  eexists _, _; split; [reflexivity|].
  split; [exact Hreq|].
  destruct (finish_fields (result fr')) as (_ & _ & _ & -> & _).
  rewrite Hiff; cbn [world].
  split; intros (response & E & Hcase); exists response; (split; [exact E|]).
  - destruct Hcase as [Hr | H200]; [|auto].
    apply is_rejection_cases in Hr; tauto.
  - destruct Hcase as [H | [H | [H | H]]]; [| | |auto];
      left; apply is_rejection_cases; auto.
Qed.

Lemma invalid_test_policy_witness :
  exists r w',
    test_api_endpoint env_500 py0 tester (lit "123456") (lit "invalid") w0
    = (inr r, w') /\
    List.length (requests w') = 4%nat.
Proof.
  destruct (invalid_test_policy env_500 py0 tester (lit "123456") w0 probed
              eq_refl) as (r & w' & E & Hw & _).
  exists r, w'; split; [exact E|].
  rewrite Hw; reflexivity.
Defined.

(** X16: when the prober reports no API, the mock result has passed
    exactly when the test type is "invalid" and the city, trimmed, is
    empty, "XYZ123NotReal" or "123456" (the three-blank marker can never
    match a trimmed city); its report says valid exactly when it has
    passed, it has no payload, and it carries exactly one error
    message. *)
Theorem mock_passes_on_three_markers (env : Env) (py : PyFloat)
    (self : WeatherAPITester) (city test_type : str) (w w1 : World) :
  check_for_weather_endpoints env py self (started w) = (inr false, w1) ->
  exists r w',
    test_api_endpoint env py self city test_type w = (inr r, w') /\
    (TestResult.passed r = true <->
     test_type = lit "invalid" /\
     (strip city = [] \/ strip city = lit "XYZ123NotReal" \/
      strip city = lit "123456")) /\
    reported_valid (TestResult.validation_results r)
    = Some (TestResult.passed r) /\
    TestResult.response_data r = None /\
    List.length (TestResult.errors r) = 1%nat.
Proof.
  intros Hprobe.
  rewrite test_api_endpoint_gate, Hprobe.
  destruct (create_mock_test_result_shape env py self city test_type
              (time_time env (clock_reads w)) w1)
    as (r & -> & _ & _ & _ & _ & _ & Hp & Hv & Hd & He).
  exists r, (tick (tick w1)); split; [reflexivity|].
  split; [|repeat split; assumption].
  rewrite Hp, andb_true_iff, str_eqb_eq, str_in_In.
  unfold canonical_markers; cbn [In].
  pose proof (strip_never_blank city) as Hblank.
  change (lit "") with (@nil N).
  split; intros [Hty Hc]; (split; [exact Hty|]).
  - destruct Hc as [H | [H | [H | [H | []]]]]; auto.
    symmetry in H; contradiction.
  - destruct Hc as [H | [H | H]]; auto.
Qed.

Lemma mock_passes_on_three_markers_witness :
  exists r w',
    test_api_endpoint env_refused py0 tester (lit "   ") (lit "invalid") w0
    = (inr r, w') /\
    TestResult.passed r = true.
Proof.
  destruct (mock_passes_on_three_markers env_refused py0 tester (lit "   ")
              (lit "invalid") w0
              (mkWorld [(lit "http://localhost:5000/api/health", 5);
                        (lit "http://localhost:5000/api/info", 5);
                        (lit "http://localhost:5000/weather?city=test", 5);
                        (lit "http://localhost:5000/api/weather/test", 5)] 2)
              eq_refl) as (r & w' & E & Hiff & _).
  exists r, w'; split; [exact E|].
  apply Hiff; split; [reflexivity | left; reflexivity].
Defined.

(* ================================================================== *)
(** * A body that fails to decode with another exception *)
(* ================================================================== *)

(** A 200 whose [json()] raises something else than a
    [json.JSONDecodeError]: the inner handler lets it through, the outer
    one records it over the status already written. *)
Lemma turn_json_fault env py city test_type start_time endpoint fr response e :
  answer env (world fr) 0 endpoint 10 = inr response ->
  Response.status_code response = 200 ->
  Response.json response = inl e ->
  (forall msg, e <> JSONDecodeError msg) ->
  try_except (attempt env py city test_type start_time endpoint) on_fault fr
  = (inr Break,
     mkFrame (tick (sent (world fr) endpoint 10))
       (TestResult.set_status_code (fault_status e)
          (TestResult.append_error (fault_message e)
             (TestResult.update endpoint 200
                (NFloat (round2 py
                   (elapsed_ms (time_time env (clock_reads (world fr)))
                               start_time)))
                (result fr))))).
Proof.
  unfold answer; rewrite Nat.add_0_r; intros H H200 Hjson Hne.
  run_turn; rewrite H; cbn; rewrite H200, Hjson; cbn.
  destruct e; try reflexivity.
  exfalso; apply (Hne msg); reflexivity.
Qed.

(** X17: when the candidate that settles the result answers 200 but
    decoding its body raises an exception that is not a
    [json.JSONDecodeError], the status 200 already recorded is replaced
    by the sentinel of the fault (408, 0 or 500) and the only error is
    the message of the fault; the endpoint stays named, so "No valid API
    endpoint found" is not added, and the result has not passed. *)
Theorem decoder_fault_replaces_status (env : Env) (py : PyFloat)
    (self : WeatherAPITester) (city test_type : str) (w w1 : World)
    (k : nat) (response : Response.t) (e : exn) :
  check_for_weather_endpoints env py self (started w) = (inr true, w1) ->
  (k < 4)%nat ->
  (forall i, (i < k)%nat ->
     exists response,
       answer env w1 i (candidate self city i) 10 = inr response /\
       Response.status_code response = 404 /\
       test_type <> lit "invalid") ->
  answer env w1 k (candidate self city k) 10 = inr response ->
  Response.status_code response = 200 ->
  Response.json response = inl e ->
  (forall msg, e <> JSONDecodeError msg) ->
  exists r w',
    test_api_endpoint env py self city test_type w = (inr r, w') /\
    TestResult.passed r = false /\
    TestResult.status_code r = Some (fault_status e) /\
    fault_status e <> 200 /\
    TestResult.errors r = [fault_message e] /\
    TestResult.api_endpoint r = Some (candidate self city k) /\
    TestResult.response_data r = None.
Proof.
  intros Hprobe Hk Hpre Hanswer H200 Hjson Hne.
  destruct (settle_at env py self city test_type w w1 k Hprobe Hk Hpre)
    as (fr_k & Hun & Hreq & Hclk & Hans & Hrun).
  rewrite <- Hans in Hanswer.
  rewrite (Hrun _ (turn_json_fault env py city test_type _ _ fr_k response e
                     Hanswer H200 Hjson Hne)).
  eexists _, _; split; [reflexivity|].
  rewrite (finish_named _ (candidate self city k)) by reflexivity.
  destruct Hun as (_ & _ & _ & Hp & He & Hd & _).
  cbn; rewrite Hp, He, Hd; repeat split.
  destruct e; discriminate.
Qed.

Lemma decoder_fault_replaces_status_witness :
  exists r w',
    test_api_endpoint env_other_decoder py0 tester (lit "London") (lit "valid")
      w0 = (inr r, w') /\
    TestResult.status_code r = Some 500 /\
    TestResult.errors r = [lit "Unexpected error: Expecting value"].
Proof.
  destruct (decoder_fault_replaces_status env_other_decoder py0 tester
              (lit "London") (lit "valid") w0 probed 0%nat
              (Response.mk 200 (lit "<html></html>")
                           (inl (OtherException (lit "Expecting value"))))
              (OtherException (lit "Expecting value"))
              eq_refl ltac:(lia) ltac:(intros i Hi; lia) eq_refl eq_refl
              eq_refl ltac:(intros msg H; discriminate))
    as (r & w' & E & _ & Hs & _ & He & _).
  exists r, w'; repeat split; assumption.
Defined.

(* ================================================================== *)
(** * Fields the validator does not look at *)
(* ================================================================== *)

Lemma check_missing_found items fields v :
  check_missing items (with_found_fields fields v)
  = with_found_fields fields (check_missing items v).
Proof. unfold check_missing; destruct (missing_fields items); reflexivity. Qed.

Lemma check_temperature_found py items fields v :
  check_temperature py items (with_found_fields fields v)
  = with_found_fields fields (check_temperature py items v).
Proof.
  unfold check_temperature; destruct (dict_get _ items) as [temp|];
    [|reflexivity].
  destruct (negb (is_int_or_float temp)); [reflexivity|].
  destruct (is_extreme temp); reflexivity.
Qed.

Lemma check_description_found items fields v :
  check_description items (with_found_fields fields v)
  = with_found_fields fields (check_description items v).
Proof.
  unfold check_description; destruct (dict_get _ items) as [desc|];
    [|reflexivity].
  destruct (empty_or_not_str desc); reflexivity.
Qed.

Lemma check_city_found items fields v :
  check_city items (with_found_fields fields v)
  = with_found_fields fields (check_city items v).
Proof.
  unfold check_city; destruct (dict_get _ items) as [c|]; [|reflexivity].
  destruct (empty_or_not_str c); reflexivity.
Qed.

(** The checks read the object through its three required keys only. *)
Lemma checks_agree py items items' v :
  (forall key, In key required_fields ->
     dict_get key items' = dict_get key items) ->
  check_city items'
    (check_description items'
       (check_temperature py items' (check_missing items' v)))
  = check_city items
      (check_description items
         (check_temperature py items (check_missing items v))).
Proof.
  intros H.
  assert (Hc : dict_get (lit "city") items' = dict_get (lit "city") items)
    by (apply H; cbn; auto).
  assert (Ht : dict_get (lit "temperature") items'
               = dict_get (lit "temperature") items)
    by (apply H; cbn; auto).
  assert (Hd : dict_get (lit "description") items'
               = dict_get (lit "description") items)
    by (apply H; cbn; auto).
  unfold check_city, check_description, check_temperature, check_missing,
    missing_fields, required_fields; cbn [filter].
  rewrite !dict_has_get, Hc, Ht, Hd; reflexivity.
Qed.

(** X18: the verdict reads nothing but [city], [temperature] and
    [description]: two objects that agree on these three keys, whatever
    other keys they hold and in whatever order, get the same [is_valid],
    the same errors and the same warnings; only [found_fields], the keys
    of each object in its own order, tells them apart. *)
Theorem validator_reads_three_fields (py : PyFloat)
    (items items' : list (str * JSON)) (city test_type : str) :
  (forall key, In key [lit "city"; lit "temperature"; lit "description"] ->
     dict_get key items' = dict_get key items) ->
  let v := validate_weather_response py (JDict items) city test_type in
  let v' := validate_weather_response py (JDict items') city test_type in
  Validation.is_valid v' = Validation.is_valid v /\
  Validation.errors v' = Validation.errors v /\
  Validation.warnings v' = Validation.warnings v /\
  Validation.found_fields v = map fst items /\
  Validation.found_fields v' = map fst items'.
Proof.
  intros H v v'; subst v v'; unfold validate_weather_response.
  change (Validation.mk true [] [] (dict_keys items'))
    with (with_found_fields (dict_keys items') (Validation.mk true [] [] [])).
  change (Validation.mk true [] [] (dict_keys items))
    with (with_found_fields (dict_keys items) (Validation.mk true [] [] [])).
  rewrite !check_missing_found, !check_temperature_found,
          !check_description_found, !check_city_found.
  rewrite (checks_agree py items items' _ H).
  repeat split.
Qed.

Lemma validator_reads_three_fields_witness :
  Validation.is_valid
    (validate_weather_response py0
       (JDict [(lit "humidity", JInt 40);
               (lit "description", JStr (lit "Clear"));
               (lit "temperature", JFloat float_18_5);
               (lit "city", JStr (lit "Paris"))])
       (lit "Paris") (lit "valid"))
  = Validation.is_valid
      (validate_weather_response py0 scenario_B (lit "Paris") (lit "valid")).
Proof.
  apply (validator_reads_three_fields py0
           [(lit "city", JStr (lit "Paris"));
            (lit "temperature", JFloat float_18_5);
            (lit "description", JStr (lit "Clear"))]
           [(lit "humidity", JInt 40);
            (lit "description", JStr (lit "Clear"));
            (lit "temperature", JFloat float_18_5);
            (lit "city", JStr (lit "Paris"))]
           (lit "Paris") (lit "valid")).
  intros key [<- | [<- | [<- | []]]]; reflexivity.
Defined.

(* ================================================================== *)
(** * Faults, in the loop and in the prober *)
(* ================================================================== *)

(** A probe that raises is a probe without evidence, whichever loop it
    belongs to: the bare [except] swallows the fault. *)
Lemma silent_probe_described py o :
  silent (confirms_described py) o -> confirms_described py o = false.
Proof. intros [(e & ->) | H]; [reflexivity | exact H]. Qed.

Lemma silent_probe_direct o :
  silent confirms_direct o -> confirms_direct o = false.
Proof. intros [(e & ->) | H]; [reflexivity | exact H]. Qed.

(** C3, amended: the method returns a result and never raises, whatever
    the HTTP client does.  When the prober has reported an API, the
    candidates before the [k]-th have answered 404 under a test type
    other than "invalid", and the request to the [k]-th raises, the
    result has the status 408 for a timeout, 0 for a connection failure
    and 500 for any other fault, its errors hold the message of that
    fault, and it has not passed.  A fault raised while probing is
    swallowed by the prober and counts as no evidence: when each of the
    four probes raises or fails to confirm, the prober reports no API and
    the method returns the mock result, with status 404 and the
    query-string endpoint, without requesting any candidate. *)
Theorem faults_are_recorded (env : Env) (py : PyFloat)
    (self : WeatherAPITester) (city test_type : str) (w : World) :
  (exists r w', test_api_endpoint env py self city test_type w = (inr r, w')) /\
  (forall (w1 : World) (k : nat) (e : exn),
     check_for_weather_endpoints env py self (started w) = (inr true, w1) ->
     (k < 4)%nat ->
     (forall i, (i < k)%nat ->
        exists response,
          answer env w1 i (candidate self city i) 10 = inr response /\
          Response.status_code response = 404 /\
          test_type <> lit "invalid") ->
     answer env w1 k (candidate self city k) 10 = inl e ->
     exists r w',
       test_api_endpoint env py self city test_type w = (inr r, w') /\
       TestResult.passed r = false /\
       match e with
       | Timeout _ =>
           TestResult.status_code r = Some 408 /\
           In (lit "Request timeout (>10 seconds)") (TestResult.errors r)
       | ConnectionError _ =>
           TestResult.status_code r = Some 0 /\
           In (lit "Connection error - API might be down")
              (TestResult.errors r)
       | _ =>
           TestResult.status_code r = Some 500 /\
           In (lit "Unexpected error: " ++ exn_str e) (TestResult.errors r)
       end) /\
  (silent (confirms_described py)
     (answer env w 0 (api_base_url self ++ lit "/api/health") 5) ->
   silent (confirms_described py)
     (answer env w 1 (api_base_url self ++ lit "/api/info") 5) ->
   silent confirms_direct
     (answer env w 2 (api_base_url self ++ lit "/weather?city=test") 5) ->
   silent confirms_direct
     (answer env w 3 (api_base_url self ++ lit "/api/weather/test") 5) ->
   exists r w' w1,
     check_for_weather_endpoints env py self (started w) = (inr false, w1) /\
     test_api_endpoint env py self city test_type w = (inr r, w') /\
     TestResult.status_code r = Some 404 /\
     TestResult.api_endpoint r
     = Some (api_base_url self ++ lit "/weather?city=" ++ city) /\
     TestResult.passed r
     = str_eqb test_type (lit "invalid")
       && str_in (strip city) canonical_markers /\
     requests w' = requests w ++ with_timeout 5 (test_endpoints self)).
Proof.
  split; [|split].
  - destruct (test_api_endpoint_returns env py self city test_type w)
      as (r & w' & E).
    exists r, w'; exact E.
  - intros w1 k e Hprobe Hk Hpre Hfault.
    rewrite test_api_endpoint_gate, Hprobe.
    unfold run_loop.
    destruct (loop_fault env py city test_type
                (time_time env (clock_reads w)) (possible_endpoints self city)
                k (mkFrame w1 (initial_result
                                 (now_isoformat env (S (clock_reads w)))
                                 city test_type)) e eq_refl Hk Hpre Hfault)
      as (fr' & -> & Hs & Hp & Hin).
    eexists _, _; split; [reflexivity|].
    assert (Hfin : TestResult.passed (finish (result fr')) = false /\
                   TestResult.status_code (finish (result fr'))
                   = Some (fault_status e) /\
                   In (fault_message e)
                      (TestResult.errors (finish (result fr')))).
    { unfold finish; destruct (TestResult.api_endpoint (result fr'));
        cbn; repeat split; try assumption.
      apply in_or_app; left; assumption. }
    destruct Hfin as (Hp' & Hs' & Hin').
    split; [assumption|].
    destruct e; cbn in Hs', Hin'; split; assumption.
  - intros H0 H1 H2 H3.
    apply silent_probe_described in H0, H1.
    apply silent_probe_direct in H2, H3.
    rewrite test_api_endpoint_gate, check_for_weather_endpoints_run.
    change (answer env (started w)) with (answer env w).
    rewrite H0, H1, H2, H3; cbn [orb probes_sent].
    match goal with
    | |- context [create_mock_test_result _ _ _ _ _ ?st ?w1] =>
        destruct (create_mock_test_result_shape env py self city test_type
                    st w1)
          as (r & -> & _ & _ & _ & Hs & Ha & Hp & _)
    end.
    eexists r, _, _; split; [reflexivity|]; split; [reflexivity|].
    repeat split; assumption.
Qed.

(** Scenario F twice: a target that the prober found and whose first
    candidate then times out, and a target that refuses every
    connection. *)
Lemma faults_are_recorded_witness :
  (exists r w',
     test_api_endpoint env_timeout py0 tester (lit "London") (lit "valid") w0
     = (inr r, w') /\
     TestResult.passed r = false /\
     TestResult.status_code r = Some 408 /\
     In (lit "Request timeout (>10 seconds)") (TestResult.errors r)) /\
  (exists r w',
     test_api_endpoint env_refused py0 tester (lit "London") (lit "valid") w0
     = (inr r, w') /\
     TestResult.status_code r = Some 404 /\
     List.length (requests w') = 4%nat).
Proof.
  split.
  - destruct (proj1 (proj2 (faults_are_recorded env_timeout py0 tester
                              (lit "London") (lit "valid") w0))
                (mkWorld [(lit "http://localhost:5000/api/health", 5);
                          (lit "http://localhost:5000/api/info", 5);
                          (lit "http://localhost:5000/weather?city=test", 5)]
                         2)
                0%nat (Timeout (lit "Read timed out.")) eq_refl
                ltac:(lia) ltac:(intros i Hi; lia) eq_refl)
      as (r & w' & E & Hp & Hs & Hin).
    exists r, w'; repeat split; assumption.
  - destruct (proj2 (proj2 (faults_are_recorded env_refused py0 tester
                              (lit "London") (lit "valid") w0))
                (or_introl (ex_intro _ _ eq_refl))
                (or_introl (ex_intro _ _ eq_refl))
                (or_introl (ex_intro _ _ eq_refl))
                (or_introl (ex_intro _ _ eq_refl)))
      as (r & w' & w1 & _ & E & Hs & _ & _ & Hw).
    exists r, w'; repeat split; try assumption.
    rewrite Hw; reflexivity.
Defined.
